(** * Verification of the schema set of [schemas.py]

    The source file declares pydantic models: flat data shapes with typed
    fields, defaults, one enum ([UserRole]) and one field validator
    ([ImageUploadResponse.validate_image_url]).  The development below

    - transcribes the validator and the Python string operations it uses,
    - transcribes every class of the file as a schema (a list of field
      declarations in declaration order, inherited fields first),
    - gives the semantics of constructing a shape from a mapping or from an
      attribute-bearing object (pydantic's validation in its default, lax,
      mode; [class Config: from_attributes = True] read as pydantic 2 does),
    - proves the properties of the specification about them. *)

From Stdlib Require Import String Ascii List ZArith Bool Lia.
From Stdlib Require Import PrimFloat FloatOps SpecFloat.
Import ListNotations.
Open Scope string_scope.
Open Scope list_scope.

Set Implicit Arguments.

(** ** Results *)

Inductive result (A E : Type) : Type :=
| Ok (a : A)
| Err (e : E).
Arguments Ok {A E} a.
Arguments Err {A E} e.

Definition is_ok {A E} (r : result A E) : bool :=
  match r with Ok _ => true | Err _ => false end.

(** ** Python strings

    A Python [str] is modelled by Rocq's [string].  [str.lower] maps the
    letters A..Z to a..z; the allowed extensions are ASCII, so only these
    letters take part in the comparison. *)
Module PyStr.

Definition is_upper (c : ascii) : bool :=
  let n := nat_of_ascii c in (65 <=? n)%nat && (n <=? 90)%nat.

Definition lower_char (c : ascii) : ascii :=
  if is_upper c then ascii_of_nat (nat_of_ascii c + 32) else c.

(** [s.lower()] *)
Fixpoint lower (s : string) : string :=
  match s with
  | EmptyString => EmptyString
  | String c r => String (lower_char c) (lower r)
  end.

(** [s.endswith(suffix)]: the last [len(suffix)] characters of [s] are
    [suffix]. *)
Definition endswith (s suffix : string) : bool :=
  let n := String.length s in
  let k := String.length suffix in
  (k <=? n)%nat && String.eqb (substring (n - k) k s) suffix.

End PyStr.

(** ** The image URL validator (schemas.py, lines 411-416) *)

Definition allowed_extensions : list string :=
  [".jpg"; ".jpeg"; ".png"; ".webp"; ".gif"].

(** [any(v.lower().endswith(ext) for ext in allowed_extensions)] *)
Definition has_allowed_extension (v : string) : bool :=
  existsb (fun ext => PyStr.endswith (PyStr.lower v) ext) allowed_extensions.

(** The body of [validate_image_url]: [Err msg] stands for
    [raise ValueError(msg)]. *)
Definition validate_image_url (v : string) : result string string :=
  if negb (has_allowed_extension v) then Err "Invalid image format"
  else Ok v.

(** ** Values

    The Python values that reach a shape or are stored in one. *)

(** [class UserRole(str, Enum)] (lines 29-31). *)
Inductive UserRole : Type := ADMIN | WORKER.

Definition UserRole_value (r : UserRole) : string :=
  match r with ADMIN => "admin" | WORKER => "worker" end.

(** [datetime.datetime]: the fields of the Python object; [tzoffset] is
    [None] for a naive timestamp, else the UTC offset in seconds. *)
Record datetime : Type := mk_datetime {
  year : Z; month : Z; day : Z;
  hour : Z; minute : Z; second : Z; microsecond : Z;
  tzoffset : option Z
}.

Unset Elimination Schemes.
Inductive value : Type :=
| VNone
| VBool (b : bool)
| VInt (z : Z)
| VFloat (f : float)
| VStr (s : string)
| VDatetime (d : datetime)
| VRole (r : UserRole)
    (** a member of [UserRole] *)
| VList (l : list value)
| VDict (m : list (string * value))
    (** a mapping; the first binding of a key is the one looked up *)
| VObj (attrs : list (string * value))
    (** an attribute-bearing object that is no pydantic model, such as a
        stored record *)
| VModel (mro : list string) (fields : list (string * value))
         (fields_set : list string).
    (** an instance of a shape: its class and the classes it inherits
        from, its fields in declaration order, and the names of the fields
        that were supplied at construction ([model_fields_set]). *)
Set Elimination Schemes.

(** Induction on values, with the hypothesis on every element of a list
    and on every value bound in a mapping. *)
Section value_ind.
Variable P : value -> Prop.
Hypothesis HNone : P VNone.
Hypothesis HBool : forall b, P (VBool b).
Hypothesis HInt : forall z, P (VInt z).
Hypothesis HFloat : forall f, P (VFloat f).
Hypothesis HStr : forall s, P (VStr s).
Hypothesis HDatetime : forall d, P (VDatetime d).
Hypothesis HRole : forall r, P (VRole r).
Hypothesis HList : forall l, Forall P l -> P (VList l).
Hypothesis HDict : forall m, Forall (fun kv => P (snd kv)) m -> P (VDict m).
Hypothesis HObj : forall m, Forall (fun kv => P (snd kv)) m -> P (VObj m).
Hypothesis HModel :
  forall mro m fs, Forall (fun kv => P (snd kv)) m -> P (VModel mro m fs).

Fixpoint value_ind (v : value) : P v :=
  let fix items (l : list value) : Forall P l :=
    match l with
    | [] => Forall_nil _
    | x :: r => Forall_cons x (value_ind x) (items r)
    end in
  let fix bindings (m : list (string * value))
      : Forall (fun kv => P (snd kv)) m :=
    match m with
    | [] => Forall_nil _
    | kv :: r => Forall_cons kv (value_ind (snd kv)) (bindings r)
    end in
  match v with
  | VNone => HNone
  | VBool b => HBool b
  | VInt z => HInt z
  | VFloat f => HFloat f
  | VStr s => HStr s
  | VDatetime d => HDatetime d
  | VRole r => HRole r
  | VList l => HList (items l)
  | VDict m => HDict (bindings m)
  | VObj m => HObj (bindings m)
  | VModel mro m fs => HModel mro fs (bindings m)
  end.
End value_ind.

(** [m.get(k)] on a mapping, [getattr(obj, k)] on an object. *)
Fixpoint lookup (k : string) (m : list (string * value)) : option value :=
  match m with
  | [] => None
  | (k', v) :: r => if String.eqb k k' then Some v else lookup k r
  end.

Definition keys (m : list (string * value)) : list string := map fst m.

(** ** Field types, field declarations and shapes *)

Inductive default_spec : Type :=
| Required
| Default (v : value).

(** One annotated class attribute: [name: type = default], and the
    function a [@validator(name)] of the class registers for it. *)
Record field_decl (T : Type) : Type := Field {
  f_name : string;
  f_type : T;
  f_default : default_spec;
  f_validator : option (value -> result value string)
}.

Unset Elimination Schemes.
Inductive ftype : Type :=
| TInt                      (** [int] *)
| TFloat                    (** [float] *)
| TStr                      (** [str] *)
| TBool                     (** [bool] *)
| TDatetime                 (** [datetime] *)
| TEmailStr                 (** [EmailStr] *)
| TUserRole                 (** [UserRole] *)
| TDict                     (** [dict] *)
| TOptional (t : ftype)     (** [Optional[t]] *)
| TList (t : ftype)         (** [List[t]] *)
| TModel (mro : list string) (from_attributes : bool)
         (fields : list (field_decl ftype)).
    (** a class deriving from [BaseModel] *)
Set Elimination Schemes.

(** A class of the file: its name, the names of the classes it inherits
    from, whether its [Config] sets [from_attributes], and its fields. *)
Record model : Type := Model {
  m_name : string;
  m_bases : list string;
  m_from_attributes : bool;
  m_fields : list (field_decl ftype)
}.

Definition m_mro (m : model) : list string := m_name m :: m_bases m.

Definition TModelOf (m : model) : ftype :=
  TModel (m_mro m) (m_from_attributes m) (m_fields m).

Definition field_names (fs : list (field_decl ftype)) : list string :=
  map (@f_name ftype) fs.

(** ** Validation errors

    A [ValidationError] carries one entry per offending field: where it
    is, and what failed. *)

Inductive loc_item : Type :=
| LField (name : string)
| LIndex (i : nat).

Inductive type_name : Type :=
| N_int | N_float | N_string | N_bool | N_datetime | N_list | N_dict | N_model.

Inductive err_kind : Type :=
| E_missing                        (** a required field is absent *)
| E_type (t : type_name)           (** the value has no accepted type *)
| E_parsing (t : type_name)        (** the value cannot be converted *)
| E_enum                           (** not a member of the enum *)
| E_value_error (msg : string).    (** a validator raised [ValueError(msg)] *)

Record error : Type := mk_error {
  e_loc : list loc_item;
  e_kind : err_kind
}.

Definition ValidationError : Type := list error.

Definition vresult : Type := result value ValidationError.

Definition fail (k : err_kind) : vresult := Err [mk_error [] k].

Definition at_loc (l : loc_item) (es : ValidationError) : ValidationError :=
  map (fun e => mk_error (l :: e_loc e) (e_kind e)) es.

(** ** Conversions between numbers *)

(** [float(z)]: the nearest double, ties to even; Python raises
    [OverflowError] when [z] is out of range. *)
Definition float_of_Z (z : Z) : option float :=
  let f := SF2Prim (binary_normalize prec emax z 0 false) in
  if PrimFloat.is_infinity f then None else Some f.

(** The integer a float is equal to, when it has no fractional part. *)
Definition Z_of_float (f : float) : option Z :=
  match Prim2SF f with
  | S754_zero _ => Some 0%Z
  | S754_finite s m e =>
      let sign := fun z => if s then Z.opp z else z in
      match e with
      | Zneg k =>
          let d := Z.pow 2 (Zpos k) in
          if Z.eqb (Z.modulo (Zpos m) d) 0
          then Some (sign (Z.div (Zpos m) d)) else None
      | _ => Some (sign (Z.mul (Zpos m) (Z.pow 2 e)))
      end
  | _ => None
  end.

(** The integer an integral float converts to: pydantic takes it only
    inside the signed 64-bit range. *)
Definition int_of_float (f : float) : option Z :=
  match Z_of_float f with
  | Some z =>
      if Z.leb (- 2 ^ 63) z && Z.ltb z (2 ^ 63) then Some z else None
  | None => None
  end.

(** ** What the validation engine takes from outside

    Parsing of numbers and timestamps out of strings is pydantic's, and
    the decision whether a string is an email address is the
    [email-validator] package's.  Neither is code of this file: the
    engine is parametrised by them. *)
Class Externals : Type := {
  parse_int : string -> option Z;
  parse_float : string -> option float;
  parse_datetime : string -> option datetime;
  datetime_of_int : Z -> option datetime;
  datetime_of_float : float -> option datetime;
  (** [Ok e'] when the string is an address, [e'] its normal form;
      [Err reason] otherwise, with the reason the package gives *)
  validate_email : string -> result string string
}.

(** ** Construction of a shape *)

Definition of_option {A} (k : err_kind) (f : A -> value) (o : option A)
  : vresult :=
  match o with Some a => Ok (f a) | None => fail k end.

Definition true_strings : list string := ["1"; "on"; "t"; "true"; "y"; "yes"].
Definition false_strings : list string := ["0"; "off"; "f"; "false"; "n"; "no"].

Definition mem_string (s : string) (l : list string) : bool :=
  existsb (String.eqb s) l.

(** [isinstance(obj, cls)] for an object whose class has the given
    method resolution order. *)
Definition isinstance (mro : list string) (cls : string) : bool :=
  mem_string cls mro.

Definition class_of (mro : list string) : string := hd "" mro.

(** Run a [@validator] on a value that passed its type. *)
Definition run_validator (f : option (value -> result value string))
  (v : value) : vresult :=
  match f with
  | None => Ok v
  | Some g =>
      match g v with
      | Ok w => Ok w
      | Err msg => fail (E_value_error msg)
      end
  end.

(** The state of a construction under way: the fields accepted so far, the
    names of those that were supplied, and the errors met. *)
Record partial : Type := mk_partial {
  p_fields : list (string * value);
  p_set : list string;
  p_errors : ValidationError
}.

Section Engine.
Context {X : Externals}.

Definition coerce_int (v : value) : vresult :=
  match v with
  | VInt z => Ok (VInt z)
  | VBool b => Ok (VInt (if b then 1 else 0))
  | VFloat f => of_option (E_parsing N_int) VInt (int_of_float f)
  | VStr s => of_option (E_parsing N_int) VInt (parse_int s)
  | VRole r => of_option (E_parsing N_int) VInt (parse_int (UserRole_value r))
  | _ => fail (E_type N_int)
  end.

Definition coerce_float (v : value) : vresult :=
  match v with
  | VFloat f => Ok (VFloat f)
  | VInt z => of_option (E_type N_float) VFloat (float_of_Z z)
  | VBool b => Ok (VFloat (if b then 1 else 0)%float)
  | VStr s => of_option (E_parsing N_float) VFloat (parse_float s)
  | VRole r =>
      of_option (E_parsing N_float) VFloat (parse_float (UserRole_value r))
  | _ => fail (E_type N_float)
  end.

Definition coerce_str (v : value) : vresult :=
  match v with
  | VStr s => Ok (VStr s)
  | VRole r => Ok (VStr (UserRole_value r))
  | _ => fail (E_type N_string)
  end.

Definition bool_of_string (s : string) : vresult :=
  let l := PyStr.lower s in
  if mem_string l true_strings then Ok (VBool true)
  else if mem_string l false_strings then Ok (VBool false)
  else fail (E_parsing N_bool).

Definition coerce_bool (v : value) : vresult :=
  match v with
  | VBool b => Ok (VBool b)
  | VInt z =>
      if Z.eqb z 0 then Ok (VBool false)
      else if Z.eqb z 1 then Ok (VBool true)
      else fail (E_parsing N_bool)
  | VFloat f =>
      if PrimFloat.eqb f 0%float then Ok (VBool false)
      else if PrimFloat.eqb f 1%float then Ok (VBool true)
      else fail (E_type N_bool)
  | VStr s => bool_of_string s
  | VRole r => bool_of_string (UserRole_value r)
  | _ => fail (E_type N_bool)
  end.

Definition coerce_datetime (v : value) : vresult :=
  match v with
  | VDatetime d => Ok (VDatetime d)
  | VStr s => of_option (E_parsing N_datetime) VDatetime (parse_datetime s)
  | VInt z => of_option (E_parsing N_datetime) VDatetime (datetime_of_int z)
  | VFloat f =>
      of_option (E_parsing N_datetime) VDatetime (datetime_of_float f)
  | VRole r =>
      of_option (E_parsing N_datetime) VDatetime
                (parse_datetime (UserRole_value r))
  | _ => fail (E_type N_datetime)
  end.

(** The message of a rejected address carries the reason given by the
    email validator. *)
Definition email_error (reason : string) : err_kind :=
  E_value_error ("value is not a valid email address: " ++ reason)%string.

Definition coerce_email (v : value) : vresult :=
  match coerce_str v with
  | Ok (VStr s) =>
      match validate_email s with
      | Ok e => Ok (VStr e)
      | Err reason => fail (email_error reason)
      end
  | Ok _ => fail (E_type N_string)
  | Err e => Err e
  end.

Definition role_of_string (s : string) : option UserRole :=
  if String.eqb s "admin" then Some ADMIN
  else if String.eqb s "worker" then Some WORKER
  else None.

Definition coerce_role (v : value) : vresult :=
  match v with
  | VRole r => Ok (VRole r)
  | VStr s => of_option E_enum VRole (role_of_string s)
  | _ => fail E_enum
  end.

Definition coerce_dict (v : value) : vresult :=
  match v with
  | VDict m => Ok (VDict m)
  | _ => fail (E_type N_dict)
  end.

(** The elements of a list, each at its index; every error is kept. *)
Fixpoint coerce_items (c : value -> vresult) (i : nat) (l : list value)
  : result (list value) ValidationError :=
  match l with
  | [] => Ok []
  | x :: r =>
      match c x, coerce_items c (S i) r with
      | Ok y, Ok ys => Ok (y :: ys)
      | Ok _, Err es => Err es
      | Err e, Ok _ => Err (at_loc (LIndex i) e)
      | Err e, Err es => Err (at_loc (LIndex i) e ++ es)
      end
  end.

(** One field: absent, it takes its default (which is not validated) or
    is reported missing; present, it is converted to its type and then
    passed to its validator.  The boolean tells whether the field was
    supplied. *)
Definition field_value (c : ftype -> value -> vresult)
  (src : list (string * value)) (fd : field_decl ftype)
  : result (value * bool) ValidationError :=
  match lookup (f_name fd) src with
  | None =>
      match f_default fd with
      | Default d => Ok (d, false)
      | Required => Err [mk_error [LField (f_name fd)] E_missing]
      end
  | Some raw =>
      match c (f_type fd) raw with
      | Ok v =>
          match run_validator (f_validator fd) v with
          | Ok w => Ok (w, true)
          | Err e => Err (at_loc (LField (f_name fd)) e)
          end
      | Err e => Err (at_loc (LField (f_name fd)) e)
      end
  end.

Definition validate_field (c : ftype -> value -> vresult)
  (src : list (string * value)) (fd : field_decl ftype) (p : partial)
  : partial :=
  match field_value c src fd with
  | Ok (v, supplied) =>
      mk_partial ((f_name fd, v) :: p_fields p)
                 (if supplied then f_name fd :: p_set p else p_set p)
                 (p_errors p)
  | Err e => mk_partial (p_fields p) (p_set p) (e ++ p_errors p)
  end.

(** All fields, in declaration order. *)
Fixpoint validate_fields (c : ftype -> value -> vresult)
  (src : list (string * value)) (fs : list (field_decl ftype)) : partial :=
  match fs with
  | [] => mk_partial [] [] []
  | fd :: r => validate_field c src fd (validate_fields c src r)
  end.

(** An instance exists only when no field failed. *)
Definition finish (mro : list string) (p : partial) : vresult :=
  match p_errors p with
  | [] => Ok (VModel mro (p_fields p) (p_set p))
  | es => Err es
  end.

(** Conversion of a raw value to a declared type. *)
Fixpoint coerce (t : ftype) (v : value) : vresult :=
  match t with
  | TInt => coerce_int v
  | TFloat => coerce_float v
  | TStr => coerce_str v
  | TBool => coerce_bool v
  | TDatetime => coerce_datetime v
  | TEmailStr => coerce_email v
  | TUserRole => coerce_role v
  | TDict => coerce_dict v
  | TOptional t' =>
      match v with
      | VNone => Ok VNone
      | _ => coerce t' v
      end
  | TList t' =>
      match v with
      | VList l =>
          match coerce_items (coerce t') 0 l with
          | Ok ys => Ok (VList ys)
          | Err es => Err es
          end
      | _ => fail (E_type N_list)
      end
  | TModel mro fa fs =>
      match v with
      | VDict m => finish mro (validate_fields coerce m fs)
      | VModel mro' attrs _ =>
          if isinstance mro' (class_of mro) then Ok v
          else if fa then finish mro (validate_fields coerce attrs fs)
          else fail (E_type N_model)
      | VObj attrs =>
          if fa then finish mro (validate_fields coerce attrs fs)
          else fail (E_type N_model)
      | _ => fail (E_type N_model)
      end
  end.

(** [cls.model_validate(v)] *)
Definition model_validate (m : model) (v : value) : vresult :=
  coerce (TModelOf m) v.

(** Calling the class on the keyword arguments [payload]. *)
Definition construct (m : model) (payload : list (string * value))
  : vresult :=
  model_validate m (VDict payload).

End Engine.

(** [instance.model_dump()]: nested instances become mappings. *)
Fixpoint model_dump (v : value) : value :=
  let fix bindings (m : list (string * value)) : list (string * value) :=
    match m with
    | [] => []
    | (k, x) :: r => (k, model_dump x) :: bindings r
    end in
  match v with
  | VList l => VList (map model_dump l)
  | VDict m => VDict (bindings m)
  | VModel _ m _ => VDict (bindings m)
  | _ => v
  end.

(** ** The classes of schemas.py

    Each class is transcribed field by field, in the order of the file; a
    subclass starts with the fields of its base class. *)

Definition req (n : string) (t : ftype) : field_decl ftype :=
  Field n t Required None.

(** [n: Optional[t] = None] *)
Definition opt (n : string) (t : ftype) : field_decl ftype :=
  Field n (TOptional t) (Default VNone) None.

(** [n: t = d] *)
Definition dflt (n : string) (t : ftype) (d : value) : field_decl ftype :=
  Field n t (Default d) None.

(** A validator declared on a [str] field receives the string. *)
Definition on_str (f : string -> result string string)
  : value -> result value string :=
  fun v =>
    match v with
    | VStr s => match f s with Ok s' => Ok (VStr s') | Err msg => Err msg end
    | _ => Ok v
    end.

Module Schemas.

(** lines 11-23 *)
Definition UserResponse : model :=
  Model "UserResponse" [] true
    [ req "id" TInt; req "username" TStr; req "email" TStr;
      req "full_name" TStr; req "role" TStr; opt "branch_id" TInt;
      req "is_active" TBool; req "is_superuser" TBool;
      req "created_at" TDatetime ].

(** lines 37-65 *)
Definition BranchBase : model :=
  Model "BranchBase" [] false
    [ req "name" TStr; opt "location" TStr; opt "address" TStr;
      opt "phone" TStr; opt "email" TStr;
      dflt "is_active" TBool (VBool true) ].

Definition BranchCreate : model :=
  Model "BranchCreate" ["BranchBase"] false (m_fields BranchBase).

Definition BranchUpdate : model :=
  Model "BranchUpdate" [] false
    [ opt "name" TStr; opt "location" TStr; opt "address" TStr;
      opt "phone" TStr; opt "email" TStr; opt "is_active" TBool ].

Definition BranchResponse : model :=
  Model "BranchResponse" ["BranchBase"] true
    (m_fields BranchBase ++
     [ req "id" TInt; req "created_at" TDatetime;
       req "updated_at" TDatetime ]).

(** lines 71-82 *)
Definition ExpenseCategoryBase : model :=
  Model "ExpenseCategoryBase" [] false
    [ req "name" TStr; opt "description" TStr;
      dflt "is_active" TBool (VBool true) ].

Definition ExpenseCategoryResponse : model :=
  Model "ExpenseCategoryResponse" ["ExpenseCategoryBase"] true
    (m_fields ExpenseCategoryBase ++
     [ req "id" TInt; req "created_at" TDatetime ]).

(** lines 85-128 *)
Definition DailyExpenseBase : model :=
  Model "DailyExpenseBase" [] false
    [ req "category" TStr; req "item_name" TStr; opt "description" TStr;
      opt "quantity" TFloat; opt "unit" TStr; req "unit_cost" TFloat;
      req "total_amount" TFloat; opt "expense_date" TDatetime;
      opt "receipt_number" TStr; opt "vendor" TStr ].

Definition DailyExpenseCreate : model :=
  Model "DailyExpenseCreate" ["DailyExpenseBase"] false
    (m_fields DailyExpenseBase ++ [ req "branch_id" TInt ]).

Definition DailyExpenseUpdate : model :=
  Model "DailyExpenseUpdate" [] false
    [ opt "category" TStr; opt "item_name" TStr; opt "description" TStr;
      opt "quantity" TFloat; opt "unit" TStr; opt "unit_cost" TFloat;
      opt "total_amount" TFloat; opt "expense_date" TDatetime;
      opt "receipt_number" TStr; opt "vendor" TStr ].

Definition DailyExpenseResponse : model :=
  Model "DailyExpenseResponse" ["DailyExpenseBase"] true
    (m_fields DailyExpenseBase ++
     [ req "id" TInt; req "branch_id" TInt; req "created_by" TInt;
       req "created_at" TDatetime ]).

Definition QuickExpenseCreate : model :=
  Model "QuickExpenseCreate" [] false
    [ req "item_name" TStr; req "quantity" TFloat; req "unit" TStr;
      req "branch_id" TInt; opt "expense_date" TDatetime ].

(** lines 134-157 *)
Definition IngredientBase : model :=
  Model "IngredientBase" [] false
    [ req "name" TStr; req "quantity" TFloat; req "unit" TStr;
      opt "image_url" TStr ].

Definition IngredientCreate : model :=
  Model "IngredientCreate" ["IngredientBase"] false (m_fields IngredientBase).

Definition IngredientUpdate : model :=
  Model "IngredientUpdate" [] false
    [ opt "name" TStr; opt "quantity" TFloat; opt "unit" TStr;
      opt "image_url" TStr ].

Definition IngredientResponse : model :=
  Model "IngredientResponse" ["IngredientBase"] true
    (m_fields IngredientBase ++ [ req "id" TInt; req "menu_item_id" TInt ]).

(** lines 163-195 *)
Definition MenuItemBase : model :=
  Model "MenuItemBase" [] false
    [ req "name" TStr; req "price" TFloat; opt "description" TStr;
      opt "image_url" TStr; opt "category" TStr;
      dflt "is_available" TBool (VBool true); opt "branch_id" TInt ].

Definition MenuItemCreate : model :=
  Model "MenuItemCreate" ["MenuItemBase"] false
    (m_fields MenuItemBase ++
     [ dflt "ingredients" (TList (TModelOf IngredientCreate)) (VList []) ]).

Definition MenuItemUpdate : model :=
  Model "MenuItemUpdate" [] false
    [ opt "name" TStr; opt "price" TFloat; opt "description" TStr;
      opt "image_url" TStr; opt "category" TStr; opt "is_available" TBool;
      opt "branch_id" TInt;
      opt "ingredients" (TList (TModelOf IngredientCreate)) ].

Definition MenuItemResponse : model :=
  Model "MenuItemResponse" ["MenuItemBase"] true
    (m_fields MenuItemBase ++
     [ req "id" TInt;
       dflt "ingredients" (TList (TModelOf IngredientResponse)) (VList []);
       req "created_at" TDatetime; req "updated_at" TDatetime ]).

(** lines 201-247 *)
Definition OrderItemCreate : model :=
  Model "OrderItemCreate" [] false
    [ req "menu_item_id" TInt; req "quantity" TInt;
      opt "special_instructions" TStr ].

Definition OrderItemResponse : model :=
  Model "OrderItemResponse" [] true
    [ req "id" TInt; req "menu_item_id" TInt; req "quantity" TInt;
      req "unit_price" TFloat; req "total_price" TFloat;
      opt "special_instructions" TStr;
      opt "menu_item" (TModelOf MenuItemResponse) ].

Definition OrderCreate : model :=
  Model "OrderCreate" [] false
    [ req "branch_id" TInt; opt "customer_name" TStr;
      opt "customer_email" TStr; dflt "order_type" TStr (VStr "dine_in");
      req "items" (TList (TModelOf OrderItemCreate)) ].

Definition OrderUpdate : model :=
  Model "OrderUpdate" [] false
    [ opt "status" TStr; opt "customer_name" TStr;
      opt "customer_email" TStr ].

Definition OrderResponse : model :=
  Model "OrderResponse" [] true
    [ req "id" TInt; req "branch_id" TInt; opt "customer_name" TStr;
      opt "customer_email" TStr; req "total_amount" TFloat;
      req "status" TStr; req "order_type" TStr; req "created_at" TDatetime;
      opt "completed_at" TDatetime;
      dflt "items" (TList (TModelOf OrderItemResponse)) (VList []) ].

(** lines 253-277 *)
Definition DailySaleCreate : model :=
  Model "DailySaleCreate" [] false
    [ req "menu_item_id" TInt; req "branch_id" TInt; req "quantity" TInt ].

Definition DailySaleResponse : model :=
  Model "DailySaleResponse" [] true
    [ req "id" TInt; req "menu_item_id" TInt; req "branch_id" TInt;
      req "quantity" TInt; req "revenue" TFloat; req "sale_date" TDatetime;
      opt "menu_item" (TModelOf MenuItemResponse) ].

Definition SalesSummary : model :=
  Model "SalesSummary" [] false
    [ req "date" TStr; opt "branch_id" TInt; req "total_items_sold" TInt;
      req "total_revenue" TFloat; req "sales_by_item" (TList TDict) ].

(** lines 283-328 *)
Definition AdminBase : model :=
  Model "AdminBase" [] false
    [ req "username" TStr; req "email" TEmailStr; opt "full_name" TStr;
      dflt "role" TUserRole (VRole WORKER); opt "branch_id" TInt ].

Definition AdminCreate : model :=
  Model "AdminCreate" ["AdminBase"] false
    (m_fields AdminBase ++ [ req "password" TStr ]).

Definition AdminUpdate : model :=
  Model "AdminUpdate" [] false
    [ opt "username" TStr; opt "email" TEmailStr; opt "full_name" TStr;
      opt "role" TUserRole; opt "branch_id" TInt; opt "is_active" TBool ].

Definition AdminLogin : model :=
  Model "AdminLogin" [] false [ req "username" TStr; req "password" TStr ].

Definition AdminResponse : model :=
  Model "AdminResponse" ["AdminBase"] true
    (m_fields AdminBase ++
     [ req "id" TInt; req "is_active" TBool; req "is_superuser" TBool;
       req "created_at" TDatetime; opt "last_login" TDatetime;
       opt "branch" (TModelOf BranchResponse) ]).

Definition Token : model :=
  Model "Token" [] false
    [ req "access_token" TStr; req "token_type" TStr;
      req "user" (TModelOf AdminResponse) ].

Definition TokenData : model :=
  Model "TokenData" [] false [ opt "username" TStr ].

(** lines 334-364 *)
Definition InventoryBase : model :=
  Model "InventoryBase" [] false
    [ req "item_name" TStr; req "current_stock" TFloat; req "unit" TStr;
      dflt "minimum_threshold" (TOptional TFloat) (VInt 0);
      opt "cost_per_unit" TFloat; opt "supplier" TStr;
      req "branch_id" TInt ].

Definition InventoryCreate : model :=
  Model "InventoryCreate" ["InventoryBase"] false (m_fields InventoryBase).

Definition InventoryUpdate : model :=
  Model "InventoryUpdate" [] false
    [ opt "item_name" TStr; opt "current_stock" TFloat; opt "unit" TStr;
      opt "minimum_threshold" TFloat; opt "cost_per_unit" TFloat;
      opt "supplier" TStr ].

Definition InventoryResponse : model :=
  Model "InventoryResponse" ["InventoryBase"] true
    (m_fields InventoryBase ++
     [ req "id" TInt; opt "last_restocked" TDatetime;
       req "created_at" TDatetime; req "updated_at" TDatetime ]).

(** lines 370-384 *)
Definition DailyReportResponse : model :=
  Model "DailyReportResponse" [] true
    [ req "id" TInt; req "branch_id" TInt; req "report_date" TDatetime;
      req "total_sales" TInt; req "total_revenue" TFloat;
      req "total_expenses" TFloat; req "net_profit" TFloat;
      opt "top_selling_item" TStr; req "export_status" TStr;
      opt "exported_at" TDatetime; req "created_at" TDatetime ].

(** lines 390-400 *)
Definition DashboardSummary : model :=
  Model "DashboardSummary" [] false
    [ opt "branch_id" TInt; req "today_sales" TInt;
      req "today_revenue" TFloat; req "today_expenses" TFloat;
      req "net_profit" TFloat; req "pending_orders" TInt;
      req "low_stock_items" TInt; req "top_selling_items" (TList TDict);
      req "recent_orders" (TList (TModelOf OrderResponse));
      req "expense_breakdown" (TList TDict) ].

(** lines 406-416 *)
Definition ImageUploadResponse : model :=
  Model "ImageUploadResponse" [] false
    [ Field "url" TStr Required (Some (on_str validate_image_url));
      req "filename" TStr; req "size" TInt ].

(** The shapes whose every field is optional. *)
Definition update_shapes : list model :=
  [ BranchUpdate; DailyExpenseUpdate; IngredientUpdate; MenuItemUpdate;
    OrderUpdate; AdminUpdate; InventoryUpdate ].

(** The shapes that validate what a client sends. *)
Definition input_shapes : list model :=
  [ BranchBase; BranchCreate; BranchUpdate; ExpenseCategoryBase;
    DailyExpenseBase; DailyExpenseCreate; DailyExpenseUpdate;
    QuickExpenseCreate; IngredientBase; IngredientCreate; IngredientUpdate;
    MenuItemBase; MenuItemCreate; MenuItemUpdate; OrderItemCreate;
    OrderCreate; OrderUpdate; DailySaleCreate; AdminBase; AdminCreate;
    AdminUpdate; AdminLogin; InventoryBase; InventoryCreate;
    InventoryUpdate ].

(** The shapes returned to a client, read from stored records
    ([from_attributes = True]). *)
Definition output_shapes : list model :=
  [ UserResponse; BranchResponse; ExpenseCategoryResponse;
    DailyExpenseResponse; IngredientResponse; MenuItemResponse;
    OrderItemResponse; OrderResponse; DailySaleResponse; AdminResponse;
    InventoryResponse; DailyReportResponse ].

Definition all_shapes : list model :=
  input_shapes ++ output_shapes ++
  [ SalesSummary; Token; TokenData; DashboardSummary; ImageUploadResponse ].

End Schemas.

(** * Definitions used by the statements *)

(** ** Induction on field types

    The hypothesis holds of the type of every field of a class. *)
Section ftype_ind.
Variable P : ftype -> Prop.
Hypothesis HInt : P TInt.
Hypothesis HFloat : P TFloat.
Hypothesis HStr : P TStr.
Hypothesis HBool : P TBool.
Hypothesis HDatetime : P TDatetime.
Hypothesis HEmailStr : P TEmailStr.
Hypothesis HUserRole : P TUserRole.
Hypothesis HDict : P TDict.
Hypothesis HOptional : forall t, P t -> P (TOptional t).
Hypothesis HList : forall t, P t -> P (TList t).
Hypothesis HModel :
  forall mro fa fs, Forall (fun fd => P (f_type fd)) fs -> P (TModel mro fa fs).

Fixpoint ftype_ind (t : ftype) : P t :=
  let fix fields (fs : list (field_decl ftype))
      : Forall (fun fd => P (f_type fd)) fs :=
    match fs with
    | [] => Forall_nil _
    | fd :: r => Forall_cons fd (ftype_ind (f_type fd)) (fields r)
    end in
  match t with
  | TInt => HInt
  | TFloat => HFloat
  | TStr => HStr
  | TBool => HBool
  | TDatetime => HDatetime
  | TEmailStr => HEmailStr
  | TUserRole => HUserRole
  | TDict => HDict
  | TOptional t' => HOptional (ftype_ind t')
  | TList t' => HList (ftype_ind t')
  | TModel mro fa fs => HModel mro fa (fields fs)
  end.
End ftype_ind.

(** ** The fields of a construction, one by one *)

Section FieldParts.
Variable c : ftype -> value -> vresult.
Variable src : list (string * value).

(** What one field contributes to the instance, to the set of supplied
    names and to the error report. *)
Definition field_binding (fd : field_decl ftype) : list (string * value) :=
  match field_value c src fd with
  | Ok (v, _) => [(f_name fd, v)]
  | Err _ => []
  end.

Definition field_supplied (fd : field_decl ftype) : list string :=
  match field_value c src fd with
  | Ok (_, true) => [f_name fd]
  | _ => []
  end.

Definition field_errors (fd : field_decl ftype) : ValidationError :=
  match field_value c src fd with
  | Ok _ => []
  | Err e => e
  end.

Definition field_ok (fd : field_decl ftype) : bool :=
  is_ok (field_value c src fd).

End FieldParts.

Fixpoint find_field (n : string) (fs : list (field_decl ftype))
  : option (field_decl ftype) :=
  match fs with
  | [] => None
  | fd :: r => if String.eqb n (f_name fd) then Some fd else find_field n r
  end.

(** Every field other than [n] passes. *)
Definition others_ok (c : ftype -> value -> vresult)
  (src : list (string * value)) (n : string) (fs : list (field_decl ftype))
  : bool :=
  forallb (fun fd => String.eqb n (f_name fd) || field_ok c src fd) fs.

(** ** An instance of the outside functions, to run examples

    It parses nothing out of strings and takes for an address every string
    with an [@] in it.  Every theorem below is stated for all instances;
    this one only evaluates the engine on concrete inputs. *)

Fixpoint has_at (s : string) : bool :=
  match s with
  | EmptyString => false
  | String c r => Ascii.eqb c "@"%char || has_at r
  end.

Definition sample_externals : Externals := {|
  parse_int := fun _ => None;
  parse_float := fun _ => None;
  parse_datetime := fun _ => None;
  datetime_of_int := fun _ => None;
  datetime_of_float := fun _ => None;
  validate_email := fun s =>
    if has_at s then Ok s
    else Err "An email address must have an @-sign."
|}.

Definition sample_time : datetime := mk_datetime 2024 5 17 12 30 0 0 None.

(** ** The statements about the image URL *)

(** The lower-casing of [s] ends with one of the allowed extensions. *)
Definition ends_with_allowed (s : string) : Prop :=
  exists ext p,
    In ext allowed_extensions /\ PyStr.lower s = (p ++ ext)%string.

Definition image_payload (url filename : string) (size : Z)
  : list (string * value) :=
  [("url", VStr url); ("filename", VStr filename); ("size", VInt size)].

(** ** The statements about roles and email addresses *)

Definition admin_shapes : list model :=
  [ Schemas.AdminBase; Schemas.AdminCreate; Schemas.AdminUpdate;
    Schemas.AdminResponse ].

Definition manager_user : list (string * value) :=
  [ ("id", VInt 7); ("username", VStr "sam"); ("email", VStr "sam@x.org");
    ("full_name", VStr "Sam Doe"); ("role", VStr "manager");
    ("is_active", VBool true); ("is_superuser", VBool false);
    ("created_at", VDatetime sample_time) ].

Definition admin_payload (role : string) : list (string * value) :=
  [ ("username", VStr "sam"); ("email", VStr "sam@x.org");
    ("role", VStr role) ].

(** The fields that hold an email address and are declared [str]. *)
Definition plain_email_fields : list (model * string) :=
  [ (Schemas.BranchBase, "email"); (Schemas.BranchCreate, "email");
    (Schemas.OrderCreate, "customer_email"); (Schemas.UserResponse, "email") ].

Fixpoint is_email_type (t : ftype) : bool :=
  match t with
  | TEmailStr => true
  | TOptional t' => is_email_type t'
  | _ => false
  end.

(** The fields of a class that are declared [EmailStr]. *)
Definition email_checked (m : model) : list string :=
  field_names (filter (fun fd => is_email_type (f_type fd)) (m_fields m)).

(** ** The statements about update shapes and expenses *)

(** The fields of an instance none of which holds a value. *)
Definition all_none (m : model) : list (string * value) :=
  map (fun n => (n, VNone)) (field_names (m_fields m)).

(** A keyword argument that is passed only when the caller has a value. *)
Definition kwarg {A} (n : string) (f : A -> value) (o : option A)
  : list (string * value) :=
  match o with Some a => [(n, f a)] | None => [] end.

(** The value of an optional field: what was passed, else [None]. *)
Definition or_none {A} (f : A -> value) (o : option A) : value :=
  match o with Some a => f a | None => VNone end.

Definition supplied_opt {A} (n : string) (o : option A) : list string :=
  match o with Some _ => [n] | None => [] end.

Record expense_args : Type := mk_expense_args {
  a_category : string;
  a_item_name : string;
  a_description : option string;
  a_quantity : option float;
  a_unit : option string;
  a_unit_cost : float;
  a_total_amount : float;
  a_expense_date : option datetime;
  a_receipt_number : option string;
  a_vendor : option string;
  a_branch_id : Z
}.

Definition expense_payload (a : expense_args) : list (string * value) :=
  [ ("category", VStr (a_category a)); ("item_name", VStr (a_item_name a)) ]
  ++ kwarg "description" VStr (a_description a)
  ++ kwarg "quantity" VFloat (a_quantity a)
  ++ kwarg "unit" VStr (a_unit a)
  ++ [ ("unit_cost", VFloat (a_unit_cost a));
       ("total_amount", VFloat (a_total_amount a)) ]
  ++ kwarg "expense_date" VDatetime (a_expense_date a)
  ++ kwarg "receipt_number" VStr (a_receipt_number a)
  ++ kwarg "vendor" VStr (a_vendor a)
  ++ [ ("branch_id", VInt (a_branch_id a)) ].

Definition expense_fields (a : expense_args) : list (string * value) :=
  [ ("category", VStr (a_category a)); ("item_name", VStr (a_item_name a));
    ("description", or_none VStr (a_description a));
    ("quantity", or_none VFloat (a_quantity a));
    ("unit", or_none VStr (a_unit a));
    ("unit_cost", VFloat (a_unit_cost a));
    ("total_amount", VFloat (a_total_amount a));
    ("expense_date", or_none VDatetime (a_expense_date a));
    ("receipt_number", or_none VStr (a_receipt_number a));
    ("vendor", or_none VStr (a_vendor a)) ].

Definition expense_supplied (a : expense_args) : list string :=
  [ "category"; "item_name" ]
  ++ supplied_opt "description" (a_description a)
  ++ supplied_opt "quantity" (a_quantity a)
  ++ supplied_opt "unit" (a_unit a)
  ++ [ "unit_cost"; "total_amount" ]
  ++ supplied_opt "expense_date" (a_expense_date a)
  ++ supplied_opt "receipt_number" (a_receipt_number a)
  ++ supplied_opt "vendor" (a_vendor a).

(** The arguments of [DailyExpenseUpdate]: every one of them may be left
    out. *)
Record expense_update_args : Type := mk_expense_update_args {
  u_category : option string;
  u_item_name : option string;
  u_description : option string;
  u_quantity : option float;
  u_unit : option string;
  u_unit_cost : option float;
  u_total_amount : option float;
  u_expense_date : option datetime;
  u_receipt_number : option string;
  u_vendor : option string
}.

Definition expense_update_payload (a : expense_update_args)
  : list (string * value) :=
  kwarg "category" VStr (u_category a)
  ++ kwarg "item_name" VStr (u_item_name a)
  ++ kwarg "description" VStr (u_description a)
  ++ kwarg "quantity" VFloat (u_quantity a)
  ++ kwarg "unit" VStr (u_unit a)
  ++ kwarg "unit_cost" VFloat (u_unit_cost a)
  ++ kwarg "total_amount" VFloat (u_total_amount a)
  ++ kwarg "expense_date" VDatetime (u_expense_date a)
  ++ kwarg "receipt_number" VStr (u_receipt_number a)
  ++ kwarg "vendor" VStr (u_vendor a).

Definition expense_update_fields (a : expense_update_args)
  : list (string * value) :=
  [ ("category", or_none VStr (u_category a));
    ("item_name", or_none VStr (u_item_name a));
    ("description", or_none VStr (u_description a));
    ("quantity", or_none VFloat (u_quantity a));
    ("unit", or_none VStr (u_unit a));
    ("unit_cost", or_none VFloat (u_unit_cost a));
    ("total_amount", or_none VFloat (u_total_amount a));
    ("expense_date", or_none VDatetime (u_expense_date a));
    ("receipt_number", or_none VStr (u_receipt_number a));
    ("vendor", or_none VStr (u_vendor a)) ].

Definition expense_update_supplied (a : expense_update_args) : list string :=
  supplied_opt "category" (u_category a)
  ++ supplied_opt "item_name" (u_item_name a)
  ++ supplied_opt "description" (u_description a)
  ++ supplied_opt "quantity" (u_quantity a)
  ++ supplied_opt "unit" (u_unit a)
  ++ supplied_opt "unit_cost" (u_unit_cost a)
  ++ supplied_opt "total_amount" (u_total_amount a)
  ++ supplied_opt "expense_date" (u_expense_date a)
  ++ supplied_opt "receipt_number" (u_receipt_number a)
  ++ supplied_opt "vendor" (u_vendor a).

(** ** Output shapes as projections of stored records *)

(** Two attribute values are alike at a type: both absent, or both
    present and related. *)
Definition alike (S : value -> value -> Prop) (a b : option value) : Prop :=
  match a, b with
  | None, None => True
  | Some x, Some y => S x y
  | _, _ => False
  end.

(** Two raw values agree on what a type declares: they are equal, or they
    are records that are alike on every declared field (whatever their
    other attributes are), or lists of such, element by element. *)
Fixpoint same_declared (t : ftype) (v1 v2 : value) {struct t} : Prop :=
  match t with
  | TOptional t' => same_declared t' v1 v2
  | TList t' =>
      v1 = v2
      \/ exists l1 l2,
           v1 = VList l1 /\ v2 = VList l2 /\ Forall2 (same_declared t') l1 l2
  | TModel _ _ fs =>
      v1 = v2
      \/ exists r1 r2,
           ((v1 = VObj r1 /\ v2 = VObj r2) \/ (v1 = VDict r1 /\ v2 = VDict r2))
           /\ (fix go (l : list (field_decl ftype)) : Prop :=
                 match l with
                 | [] => True
                 | fd :: r =>
                     alike (same_declared (f_type fd))
                           (lookup (f_name fd) r1) (lookup (f_name fd) r2)
                     /\ go r
                 end) fs
  | _ => v1 = v2
  end.

(** The same on the attributes of two records, for a list of fields. *)
Definition records_alike (fs : list (field_decl ftype))
  (r1 r2 : list (string * value)) : Prop :=
  Forall (fun fd => alike (same_declared (f_type fd))
                          (lookup (f_name fd) r1) (lookup (f_name fd) r2)) fs.

(** A stored branch and a stored admin, as the persistence layer holds
    them: the declared attributes, and internal ones ([internal_note],
    [hashed_password], [failed_logins]) that no shape declares. *)
Definition stored_branch (note : string) : list (string * value) :=
  [ ("id", VInt 3); ("name", VStr "Harbour"); ("location", VNone);
    ("address", VNone); ("phone", VNone); ("email", VNone);
    ("is_active", VBool true); ("created_at", VDatetime sample_time);
    ("updated_at", VDatetime sample_time); ("internal_note", VStr note) ].

Definition stored_admin (hash : string) (failed : Z)
  : list (string * value) :=
  [ ("hashed_password", VStr hash); ("id", VInt 1); ("username", VStr "sam");
    ("email", VStr "sam@x.org"); ("full_name", VNone); ("role", VRole ADMIN);
    ("branch_id", VInt 3); ("is_active", VBool true);
    ("is_superuser", VBool false); ("created_at", VDatetime sample_time);
    ("last_login", VNone); ("branch", VObj (stored_branch hash));
    ("failed_logins", VInt failed) ].

(** ** Instances and their dump *)

(** [v] is a valid value of type [t]: what a field of that type holds in
    an instance.  A field of a nested instance holds a valid value of its
    type or the default of its declaration (pydantic does not validate
    defaults). *)
Fixpoint conforms (t : ftype) (v : value) {struct t} : Prop :=
  match t with
  | TInt => exists z, v = VInt z
  | TFloat => exists f, v = VFloat f
  | TStr => exists s, v = VStr s
  | TBool => exists b, v = VBool b
  | TDatetime => exists d, v = VDatetime d
  | TEmailStr => exists s, v = VStr s
  | TUserRole => exists r, v = VRole r
  | TDict => exists m, v = VDict m
  | TOptional t' => v = VNone \/ conforms t' v
  | TList t' => exists l, v = VList l /\ Forall (conforms t') l
  | TModel mro _ fs =>
      exists fields supplied,
        v = VModel mro fields supplied
        /\ (fix go (l : list (field_decl ftype)) (xs : list (string * value))
              : Prop :=
              match l, xs with
              | [], [] => True
              | fd :: r, (k, x) :: xr =>
                  k = f_name fd
                  /\ (conforms (f_type fd) x \/ f_default fd = Default x)
                  /\ go r xr
              | _, _ => False
              end) fs fields
  end.

(** A binding of an instance holds a field: its name, and a valid value or
    the default. *)
Definition holds (fd : field_decl ftype) (kv : string * value) : Prop :=
  fst kv = f_name fd
  /\ (conforms (f_type fd) (snd kv) \/ f_default fd = Default (snd kv)).

(** Equality of a value of an output shape and a value of an input shape,
    field for field on the fields they share: the same value; an integer
    and the float it converts to exactly (Python's [0 == 0.0]); lists that
    agree element by element; instances whose common fields agree. *)
#[warnings="-register-all"]
Inductive agree : value -> value -> Prop :=
| agree_same (v : value) : agree v v
| agree_number (z : Z) (f : float) :
    float_of_Z z = Some f -> Z_of_float f = Some z ->
    agree (VInt z) (VFloat f)
| agree_list (l l' : list value) :
    Forall2 agree l l' -> agree (VList l) (VList l')
| agree_model (mro mro' : list string) (fs fs' : list (string * value))
    (s s' : list string) :
    (forall n x w, lookup n fs = Some x -> lookup n fs' = Some w -> agree x w) ->
    agree (VModel mro fs s) (VModel mro' fs' s').

(** The bindings of a mapping, each value dumped. *)
Definition dump_bindings (m : list (string * value)) : list (string * value) :=
  map (fun kv => (fst kv, model_dump (snd kv))) m.

(** A raw value with no pydantic instance inside: what a client sends or
    what the persistence layer returns. *)
Fixpoint plain (v : value) : bool :=
  let fix bindings (m : list (string * value)) : bool :=
    match m with
    | [] => true
    | (_, x) :: r => plain x && bindings r
    end in
  match v with
  | VList l => forallb plain l
  | VDict m => bindings m
  | VObj m => bindings m
  | VModel _ _ _ => false
  | _ => true
  end.

Definition plain_bindings (m : list (string * value)) : bool :=
  forallb (fun kv => plain (snd kv)) m.

(** No class inside the type declares a validator. *)
Fixpoint no_validators (t : ftype) : bool :=
  match t with
  | TOptional t' => no_validators t'
  | TList t' => no_validators t'
  | TModel _ _ fs =>
      (fix go (l : list (field_decl ftype)) : bool :=
         match l with
         | [] => true
         | fd :: r =>
             match f_validator fd with None => true | Some _ => false end
             && no_validators (f_type fd) && go r
         end) fs
  | _ => true
  end.

Definition field_no_validators (fd : field_decl ftype) : bool :=
  match f_validator fd with None => true | Some _ => false end
  && no_validators (f_type fd).

Section Reparsable.
Context {X : Externals}.

(** The default [d] of an output field, dumped, is accepted by the input
    type [t'] and gives a value that agrees with [d]. *)
Definition default_reparses (t' : ftype) (d : value) : Prop :=
  exists w, coerce t' (model_dump d) = Ok w /\ agree d w.

(** The input type [t'] re-parses what the output type [t] dumps: the
    same scalar type; the same structure around types that do; for two
    classes, every field of the input class has no validator and is either
    absent from the output class and optional, or present in it with a
    type that re-parses and a default that is a valid value or re-parses
    by itself.  [EmailStr] is left out: a second validation of an address
    is the email validator's business. *)
Fixpoint reparsable (t' t : ftype) {struct t'} : Prop :=
  match t' with
  | TInt => t = TInt
  | TFloat => t = TFloat
  | TStr => t = TStr
  | TBool => t = TBool
  | TDatetime => t = TDatetime
  | TUserRole => t = TUserRole
  | TEmailStr => False
  | TDict => False
  | TOptional t1' =>
      match t with TOptional t1 => reparsable t1' t1 | _ => False end
  | TList t1' =>
      match t with TList t1 => reparsable t1' t1 | _ => False end
  | TModel _ _ fs' =>
      match t with
      | TModel _ _ fs =>
          (fix go (l : list (field_decl ftype)) : Prop :=
             match l with
             | [] => True
             | fd' :: r =>
                 (f_validator fd' = None
                  /\ match find_field (f_name fd') fs with
                     | None => f_default fd' <> Required
                     | Some fd =>
                         reparsable (f_type fd') (f_type fd)
                         /\ match f_default fd with
                            | Required => True
                            | Default d =>
                                conforms (f_type fd) d
                                \/ default_reparses (f_type fd') d
                            end
                     end)
                 /\ go r
             end) fs'
      | _ => False
      end
  end.

Definition field_reparsable (fs : list (field_decl ftype))
  (fd' : field_decl ftype) : Prop :=
  f_validator fd' = None
  /\ match find_field (f_name fd') fs with
     | None => f_default fd' <> Required
     | Some fd =>
         reparsable (f_type fd') (f_type fd)
         /\ match f_default fd with
            | Required => True
            | Default d =>
                conforms (f_type fd) d \/ default_reparses (f_type fd') d
            end
     end.

End Reparsable.

(** The output shapes that have an input shape whose required fields they
    all declare, each with that input shape. *)
Definition roundtrip_pairs : list (model * model) :=
  [ (Schemas.BranchResponse, Schemas.BranchCreate);
    (Schemas.ExpenseCategoryResponse, Schemas.ExpenseCategoryBase);
    (Schemas.DailyExpenseResponse, Schemas.DailyExpenseCreate);
    (Schemas.IngredientResponse, Schemas.IngredientCreate);
    (Schemas.MenuItemResponse, Schemas.MenuItemCreate);
    (Schemas.OrderItemResponse, Schemas.OrderItemCreate);
    (Schemas.OrderResponse, Schemas.OrderCreate);
    (Schemas.DailySaleResponse, Schemas.DailySaleCreate);
    (Schemas.InventoryResponse, Schemas.InventoryCreate) ].

Definition fields_of (v : value) : list (string * value) :=
  match v with VModel _ fs _ => fs | _ => [] end.

Definition harbour_branch : value :=
  VModel ["BranchResponse"; "BranchBase"]
    [ ("name", VStr "Harbour"); ("location", VNone); ("address", VNone);
      ("phone", VNone); ("email", VNone); ("is_active", VBool true);
      ("id", VInt 3); ("created_at", VDatetime sample_time);
      ("updated_at", VDatetime sample_time) ]
    [ "name"; "location"; "address"; "phone"; "email"; "is_active"; "id";
      "created_at"; "updated_at" ].

(** The instance [stored_admin_projected] computes. *)
Definition sam_admin : value :=
  VModel ["AdminResponse"; "AdminBase"]
    [ ("username", VStr "sam"); ("email", VStr "sam@x.org");
      ("full_name", VNone); ("role", VRole ADMIN); ("branch_id", VInt 3);
      ("id", VInt 1); ("is_active", VBool true);
      ("is_superuser", VBool false); ("created_at", VDatetime sample_time);
      ("last_login", VNone); ("branch", harbour_branch) ]
    [ "username"; "email"; "full_name"; "role"; "branch_id"; "id";
      "is_active"; "is_superuser"; "created_at"; "last_login"; "branch" ].

Ltac solve_conforms :=
  cbn;
  first [ now left
        | now (eexists; reflexivity)
        | now (eexists; split; [reflexivity | constructor]) ].

Ltac solve_default :=
  eexists; split; [reflexivity | apply agree_number; reflexivity].

Ltac solve_reparsable :=
  cbn -[conforms default_reparses];
  repeat match goal with
         | |- _ /\ _ => split
         | |- True => exact I
         | |- _ = _ => reflexivity
         | |- _ <> _ => discriminate
         | |- conforms _ _ \/ default_reparses _ _ =>
             first [ left; solve_conforms | right; solve_default ]
         end.

(** ** Definitions for further properties of the shapes *)

Definition is_required (fd : field_decl ftype) : bool :=
  match f_default fd with Required => true | Default _ => false end.

(** The names of the fields a class declares without a default. *)
Definition required_names (fs : list (field_decl ftype)) : list string :=
  field_names (filter is_required fs).

(** The fields a class declares with a default, each with its default. *)
Definition default_bindings (fs : list (field_decl ftype))
  : list (string * value) :=
  flat_map (fun fd => match f_default fd with
                      | Default d => [(f_name fd, d)]
                      | Required => []
                      end) fs.

Definition missing_error (n : string) : error :=
  mk_error [LField n] E_missing.

Definition is_present (src : list (string * value)) (n : string) : bool :=
  match lookup n src with Some _ => true | None => false end.

(** The declared names that a payload supplies, in declaration order. *)
Definition present_names (src : list (string * value))
  (fs : list (field_decl ftype)) : list string :=
  filter (is_present src) (field_names fs).

(** The arguments of one [OrderItemCreate]. *)
Record item_args : Type := mk_item_args {
  i_menu_item_id : Z;
  i_quantity : Z;
  i_special_instructions : option string
}.

Definition item_payload (a : item_args) : value :=
  VDict ([ ("menu_item_id", VInt (i_menu_item_id a));
           ("quantity", VInt (i_quantity a)) ]
         ++ kwarg "special_instructions" VStr (i_special_instructions a)).

Definition item_instance (a : item_args) : value :=
  VModel ["OrderItemCreate"]
    [ ("menu_item_id", VInt (i_menu_item_id a));
      ("quantity", VInt (i_quantity a));
      ("special_instructions", or_none VStr (i_special_instructions a)) ]
    ([ "menu_item_id"; "quantity" ]
     ++ supplied_opt "special_instructions" (i_special_instructions a)).

Definition order_payload (branch : Z) (items : list value)
  : list (string * value) :=
  [ ("branch_id", VInt branch); ("items", VList items) ].

(** The shapes with no [EmailStr] field, no [dict] field and no
    validator, at any depth. *)
Definition self_roundtrip_shapes : list model :=
  [ Schemas.UserResponse; Schemas.BranchBase; Schemas.BranchCreate;
    Schemas.BranchUpdate; Schemas.BranchResponse;
    Schemas.ExpenseCategoryBase; Schemas.ExpenseCategoryResponse;
    Schemas.DailyExpenseBase; Schemas.DailyExpenseCreate;
    Schemas.DailyExpenseUpdate; Schemas.DailyExpenseResponse;
    Schemas.QuickExpenseCreate; Schemas.IngredientBase;
    Schemas.IngredientCreate; Schemas.IngredientUpdate;
    Schemas.IngredientResponse; Schemas.MenuItemBase; Schemas.MenuItemCreate;
    Schemas.MenuItemUpdate; Schemas.MenuItemResponse; Schemas.OrderItemCreate;
    Schemas.OrderItemResponse; Schemas.OrderCreate; Schemas.OrderUpdate;
    Schemas.OrderResponse; Schemas.DailySaleCreate; Schemas.DailySaleResponse;
    Schemas.AdminLogin; Schemas.TokenData; Schemas.InventoryBase;
    Schemas.InventoryCreate; Schemas.InventoryUpdate;
    Schemas.InventoryResponse; Schemas.DailyReportResponse ].

(** Payloads used to run the properties below. *)
Definition quick_expense_no_branch : list (string * value) :=
  [ ("item_name", VStr "Ice"); ("quantity", VFloat 2); ("unit", VStr "bag") ].

Definition admin_create_payload : list (string * value) :=
  [ ("username", VStr "sam"); ("email", VStr "sam@x.org");
    ("password", VStr "s3cret") ].

Definition admin_response_payload (email : string)
  : list (string * value) :=
  [ ("id", VInt 1); ("username", VStr "sam"); ("email", VStr email);
    ("is_active", VBool true); ("is_superuser", VBool false);
    ("created_at", VDatetime sample_time) ].

Definition admin_create_instance (supplied : list string) : value :=
  VModel ["AdminCreate"; "AdminBase"]
    [ ("username", VStr "sam"); ("email", VStr "sam@x.org");
      ("full_name", VNone); ("role", VRole WORKER); ("branch_id", VNone);
      ("password", VStr "s3cret") ] supplied.

(** The types at which a value that already has the type is stored as it
    is: no nested class (whose instance is built anew) and no [EmailStr]
    (whose value is the validator's normal form). *)
Fixpoint keeps_values (t : ftype) : bool :=
  match t with
  | TEmailStr => false
  | TModel _ _ _ => false
  | TOptional t' => keeps_values t'
  | TList t' => keeps_values t'
  | _ => true
  end.

(** The classes of the file that carry
    [class Config: from_attributes = True]. *)
Definition config_classes : list string :=
  [ "UserResponse"; "BranchResponse"; "ExpenseCategoryResponse";
    "DailyExpenseResponse"; "IngredientResponse"; "MenuItemResponse";
    "OrderItemResponse"; "OrderResponse"; "DailySaleResponse";
    "AdminResponse"; "InventoryResponse"; "DailyReportResponse" ].

Definition is_optional (t : ftype) : bool :=
  match t with TOptional _ => true | _ => false end.

(** The fields named [image_url], each with its class. *)
Definition image_url_fields : list model :=
  [ Schemas.IngredientBase; Schemas.IngredientCreate;
    Schemas.IngredientUpdate; Schemas.IngredientResponse;
    Schemas.MenuItemBase; Schemas.MenuItemCreate; Schemas.MenuItemUpdate;
    Schemas.MenuItemResponse ].

Definition summary_payload (date : string) (branch : option Z) (sold : Z)
  (revenue : float) (rows : list (list (string * value)))
  : list (string * value) :=
  [ ("date", VStr date) ]
  ++ kwarg "branch_id" VInt branch
  ++ [ ("total_items_sold", VInt sold); ("total_revenue", VFloat revenue);
       ("sales_by_item", VList (map VDict rows)) ].

(** ** The wire encoding of an instance

    What a client receives is the JSON document of the instance, read
    back as a mapping: nested instances are mappings, a timestamp is its
    ISO-8601 string, an enum member is its string value, and a float that
    is not finite is [null] (the default of pydantic's JSON output).
    The formatting of a timestamp is [datetime.isoformat], which is no
    code of this file. *)
Class Wire : Type := {
  isoformat : datetime -> string
}.

Section WireEncoding.
Context {X : Externals} {W : Wire}.

Fixpoint to_wire (v : value) : value :=
  let fix bindings (m : list (string * value)) : list (string * value) :=
    match m with
    | [] => []
    | (k, x) :: r => (k, to_wire x) :: bindings r
    end in
  match v with
  | VFloat f => if PrimFloat.is_finite f then VFloat f else VNone
  | VDatetime d => VStr (isoformat d)
  | VRole r => VStr (UserRole_value r)
  | VList l => VList (map to_wire l)
  | VDict m => VDict (bindings m)
  | VModel _ m _ => VDict (bindings m)
  | _ => v
  end.

Definition wire_bindings (m : list (string * value))
  : list (string * value) :=
  map (fun kv => (fst kv, to_wire (snd kv))) m.

(** An instance survives the wire: its floats are finite and its
    timestamps are read back from their ISO-8601 string. *)
Fixpoint wire_safe (v : value) : Prop :=
  let fix bindings (m : list (string * value)) : Prop :=
    match m with
    | [] => True
    | (_, x) :: r => wire_safe x /\ bindings r
    end in
  let fix items (l : list value) : Prop :=
    match l with
    | [] => True
    | x :: r => wire_safe x /\ items r
    end in
  match v with
  | VFloat f => PrimFloat.is_finite f = true
  | VDatetime d => parse_datetime (isoformat d) = Some d
  | VList l => items l
  | VDict m => bindings m
  | VModel _ m _ => bindings m
  | _ => True
  end.

End WireEncoding.

(** Equality as Python's [==] sees it, between a value of an output shape
    and a value of an input shape, on the fields the shapes share: the
    same [None], boolean, integer, string, timestamp or enum member;
    floats that compare equal; an integer and the float it converts to
    exactly; lists equal element by element; instances whose common
    fields are equal. *)
#[warnings="-register-all"]
Inductive py_equal : value -> value -> Prop :=
| pe_none : py_equal VNone VNone
| pe_bool (b : bool) : py_equal (VBool b) (VBool b)
| pe_int (z : Z) : py_equal (VInt z) (VInt z)
| pe_str (s : string) : py_equal (VStr s) (VStr s)
| pe_datetime (d : datetime) : py_equal (VDatetime d) (VDatetime d)
| pe_role (r : UserRole) : py_equal (VRole r) (VRole r)
| pe_float (f f' : float) :
    PrimFloat.eqb f f' = true -> py_equal (VFloat f) (VFloat f')
| pe_number (z : Z) (f : float) :
    float_of_Z z = Some f -> Z_of_float f = Some z ->
    py_equal (VInt z) (VFloat f)
| pe_list (l l' : list value) :
    Forall2 py_equal l l' -> py_equal (VList l) (VList l')
| pe_model (mro mro' : list string) (fs fs' : list (string * value))
    (s s' : list string) :
    (forall n x w,
        lookup n fs = Some x -> lookup n fs' = Some w -> py_equal x w) ->
    py_equal (VModel mro fs s) (VModel mro' fs' s').

Section WireReparsable.
Context {X : Externals} {W : Wire}.

(** The default [d] of an output field, on the wire, is accepted by the
    input type [t'] and gives a value equal to [d]. *)
Definition default_reparses_wire (t' : ftype) (d : value) : Prop :=
  exists w, coerce t' (to_wire d) = Ok w /\ py_equal d w.

(** The input type [t'] re-parses what the output type [t] puts on the
    wire: as [reparsable], with timestamps and enum members included. *)
Fixpoint wire_reparsable (t' t : ftype) {struct t'} : Prop :=
  match t' with
  | TInt => t = TInt
  | TFloat => t = TFloat
  | TStr => t = TStr
  | TBool => t = TBool
  | TDatetime => t = TDatetime
  | TUserRole => t = TUserRole
  | TEmailStr => False
  | TDict => False
  | TOptional t1' =>
      match t with TOptional t1 => wire_reparsable t1' t1 | _ => False end
  | TList t1' =>
      match t with TList t1 => wire_reparsable t1' t1 | _ => False end
  | TModel _ _ fs' =>
      match t with
      | TModel _ _ fs =>
          (fix go (l : list (field_decl ftype)) : Prop :=
             match l with
             | [] => True
             | fd' :: r =>
                 (f_validator fd' = None
                  /\ match find_field (f_name fd') fs with
                     | None => f_default fd' <> Required
                     | Some fd =>
                         wire_reparsable (f_type fd') (f_type fd)
                         /\ match f_default fd with
                            | Required => True
                            | Default d =>
                                conforms (f_type fd) d
                                \/ default_reparses_wire (f_type fd') d
                            end
                     end)
                 /\ go r
             end) fs'
      | _ => False
      end
  end.

Definition field_wire_reparsable (fs : list (field_decl ftype))
  (fd' : field_decl ftype) : Prop :=
  f_validator fd' = None
  /\ match find_field (f_name fd') fs with
     | None => f_default fd' <> Required
     | Some fd =>
         wire_reparsable (f_type fd') (f_type fd)
         /\ match f_default fd with
            | Required => True
            | Default d =>
                conforms (f_type fd) d \/ default_reparses_wire (f_type fd') d
            end
     end.

End WireReparsable.

(** An instance of the formatting and parsing of timestamps, to run
    examples: naive timestamps to the second, [YYYY-MM-DDTHH:MM:SS], as
    [isoformat] writes them when the microsecond is 0. *)
Definition digit (n : nat) : ascii := ascii_of_nat (48 + Nat.modulo n 10).

Definition digits2 (z : Z) : string :=
  let n := Z.to_nat z in
  String (digit (Nat.div n 10)) (String (digit n) EmptyString).

Definition digits4 (z : Z) : string :=
  let n := Z.to_nat z in
  String (digit (Nat.div n 1000))
    (String (digit (Nat.div n 100))
       (String (digit (Nat.div n 10)) (String (digit n) EmptyString))).

Definition sample_isoformat (d : datetime) : string :=
  (digits4 (year d) ++ "-" ++ digits2 (month d) ++ "-" ++ digits2 (day d)
   ++ "T" ++ digits2 (hour d) ++ ":" ++ digits2 (minute d) ++ ":"
   ++ digits2 (second d))%string.

Fixpoint number_of (acc : Z) (s : string) : option Z :=
  match s with
  | EmptyString => Some acc
  | String c r =>
      let n := nat_of_ascii c in
      if (48 <=? n)%nat && (n <=? 57)%nat
      then number_of (10 * acc + Z.of_nat (n - 48)) r
      else None
  end.

Definition sample_parse_datetime (s : string) : option datetime :=
  if Nat.eqb (String.length s) 19
     && String.eqb (substring 4 1 s) "-" && String.eqb (substring 7 1 s) "-"
     && String.eqb (substring 10 1 s) "T"
     && String.eqb (substring 13 1 s) ":" && String.eqb (substring 16 1 s) ":"
  then
    match number_of 0 (substring 0 4 s), number_of 0 (substring 5 2 s),
          number_of 0 (substring 8 2 s), number_of 0 (substring 11 2 s),
          number_of 0 (substring 14 2 s), number_of 0 (substring 17 2 s)
    with
    | Some y, Some mo, Some d, Some h, Some mi, Some sec =>
        Some (mk_datetime y mo d h mi sec 0 None)
    | _, _, _, _, _, _ => None
    end
  else None.

Definition sample_wire : Wire := {| isoformat := sample_isoformat |}.

(** [sample_externals] with timestamps parsed out of strings. *)
Definition wire_externals : Externals := {|
  parse_int := fun _ => None;
  parse_float := fun _ => None;
  parse_datetime := sample_parse_datetime;
  datetime_of_int := fun _ => None;
  datetime_of_float := fun _ => None;
  validate_email := fun s =>
    if has_at s then Ok s
    else Err "An email address must have an @-sign."
|}.

(** A stored expense and the [DailyExpenseResponse] built from it. *)
Definition stored_expense (cost : float) : list (string * value) :=
  [ ("id", VInt 8); ("category", VStr "Produce");
    ("item_name", VStr "Tomatoes"); ("description", VNone);
    ("quantity", VFloat 10); ("unit", VStr "kg"); ("unit_cost", VFloat cost);
    ("total_amount", VFloat 25); ("expense_date", VDatetime sample_time);
    ("receipt_number", VNone); ("vendor", VNone); ("branch_id", VInt 1);
    ("created_by", VInt 1); ("created_at", VDatetime sample_time) ].

Definition expense_instance (cost : float) : value :=
  VModel ["DailyExpenseResponse"; "DailyExpenseBase"]
    [ ("category", VStr "Produce"); ("item_name", VStr "Tomatoes");
      ("description", VNone); ("quantity", VFloat 10); ("unit", VStr "kg");
      ("unit_cost", VFloat cost); ("total_amount", VFloat 25);
      ("expense_date", VDatetime sample_time); ("receipt_number", VNone);
      ("vendor", VNone); ("id", VInt 8); ("branch_id", VInt 1);
      ("created_by", VInt 1); ("created_at", VDatetime sample_time) ]
    [ "category"; "item_name"; "description"; "quantity"; "unit";
      "unit_cost"; "total_amount"; "expense_date"; "receipt_number";
      "vendor"; "id"; "branch_id"; "created_by"; "created_at" ].

Ltac solve_wire_default :=
  eexists; split; [reflexivity | apply pe_number; reflexivity].

Ltac solve_wire_reparsable :=
  cbn -[conforms default_reparses_wire];
  repeat match goal with
         | |- _ /\ _ => split
         | |- True => exact I
         | |- _ = _ => reflexivity
         | |- _ <> _ => discriminate
         | |- conforms _ _ \/ default_reparses_wire _ _ =>
             first [ left; solve_conforms | right; solve_wire_default ]
         end.

(** * Properties *)

(** ** Strings *)

Lemma substring_skip (p t : string) (k : nat) :
  substring (String.length p) k (p ++ t)%string = substring 0 k t.
Proof.
  induction p as [|c p IH]; simpl; [reflexivity | exact IH].
Qed.

Lemma substring_all (t : string) : substring 0 (String.length t) t = t.
Proof.
  induction t as [|c t IH]; simpl; [reflexivity | now rewrite IH].
Qed.

Lemma substring_split (s : string) (m : nat) :
  m <= String.length s ->
  s = (substring 0 m s ++ substring m (String.length s - m) s)%string.
Proof.
  revert m; induction s as [|c s IH]; intros m Hm; simpl in *.
  - destruct m; [reflexivity | lia].
  - destruct m as [|m]; simpl.
    + now rewrite substring_all.
    + f_equal. apply IH. lia.
Qed.

Lemma length_append (p t : string) :
  String.length (p ++ t)%string = String.length p + String.length t.
Proof.
  induction p as [|c p IH]; simpl; [reflexivity | now rewrite IH].
Qed.

(** [endswith] holds exactly of the strings that are some prefix followed
    by the suffix. *)
Lemma endswith_spec (s suffix : string) :
  PyStr.endswith s suffix = true <-> exists p, s = (p ++ suffix)%string.
Proof.
  unfold PyStr.endswith. rewrite andb_true_iff, Nat.leb_le, String.eqb_eq.
  split.
  - intros [Hle Hsub].
    exists (substring 0 (String.length s - String.length suffix) s).
    assert (Hm : String.length s - String.length suffix <= String.length s)
      by lia.
    pose proof (substring_split s Hm) as Hs.
    replace (String.length s - (String.length s - String.length suffix))
      with (String.length suffix) in Hs by lia.
    rewrite Hsub in Hs. exact Hs.
  - intros [p ->]. rewrite length_append. split; [lia|].
    replace (String.length p + String.length suffix - String.length suffix)
      with (String.length p) by lia.
    now rewrite substring_skip, substring_all.
Qed.

Lemma has_allowed_extension_spec (s : string) :
  has_allowed_extension s = true <-> ends_with_allowed s.
Proof.
  unfold has_allowed_extension, ends_with_allowed.
  rewrite existsb_exists. split.
  - intros [ext [Hin He]]. apply endswith_spec in He as [p Hp]. eauto.
  - intros [ext [p [Hin Hp]]]. exists ext. split; [exact Hin|].
    apply endswith_spec. eauto.
Qed.

Lemma validate_image_url_ok (s : string) :
  ends_with_allowed s -> validate_image_url s = Ok s.
Proof.
  intros H. apply has_allowed_extension_spec in H.
  unfold validate_image_url. now rewrite H.
Qed.

Lemma validate_image_url_err (s : string) :
  ~ ends_with_allowed s -> validate_image_url s = Err "Invalid image format".
Proof.
  intros H. unfold validate_image_url.
  destruct (has_allowed_extension s) eqn:E; [|reflexivity].
  apply has_allowed_extension_spec in E. contradiction.
Qed.

Example validate_photo_JPG : validate_image_url "photo.JPG" = Ok "photo.JPG".
Proof. reflexivity. Qed.

Example validate_photo_bmp :
  validate_image_url "photo.bmp" = Err "Invalid image format".
Proof. reflexivity. Qed.

Section ImageUpload.
Context {X : Externals}.

(** C1.  For every string [s] (and every file name and size),
    constructing [ImageUploadResponse] with [url = s] succeeds and keeps
    [s] unchanged exactly when the lower-casing of [s] ends with one of
    .jpg, .jpeg, .png, .webp, .gif; exactly otherwise it fails with a
    validation error on [url] whose message is "Invalid image format".
    The validator itself returns [s] in the first case and raises that
    message in the second. *)
Theorem C1_image_url_extension (s filename : string) (size : Z) :
  (ends_with_allowed s <->
     construct Schemas.ImageUploadResponse (image_payload s filename size)
     = Ok (VModel ["ImageUploadResponse"]
                  (image_payload s filename size)
                  ["url"; "filename"; "size"]))
  /\ (~ ends_with_allowed s <->
     construct Schemas.ImageUploadResponse (image_payload s filename size)
     = Err [mk_error [LField "url"] (E_value_error "Invalid image format")])
  /\ (ends_with_allowed s <-> validate_image_url s = Ok s)
  /\ (~ ends_with_allowed s <->
      validate_image_url s = Err "Invalid image format").
Proof.
  assert (Hc : construct Schemas.ImageUploadResponse
                 (image_payload s filename size)
               = match validate_image_url s with
                 | Ok s' => Ok (VModel ["ImageUploadResponse"]
                                  (image_payload s' filename size)
                                  ["url"; "filename"; "size"])
                 | Err msg =>
                     Err [mk_error [LField "url"] (E_value_error msg)]
                 end).
  { unfold construct, model_validate. cbn.
    unfold validate_field, field_value; cbn.
    destruct (validate_image_url s); reflexivity. }
  rewrite Hc.
  destruct (has_allowed_extension s) eqn:E.
  - assert (Ha : ends_with_allowed s)
      by now apply has_allowed_extension_spec.
    rewrite (validate_image_url_ok Ha).
    repeat split; intros; try reflexivity; try assumption;
      try contradiction; try discriminate.
  - assert (Hn : ~ ends_with_allowed s).
    { intros Ha. apply has_allowed_extension_spec in Ha. congruence. }
    rewrite (validate_image_url_err Hn).
    repeat split; intros; try reflexivity; try assumption;
      try contradiction; try discriminate.
Qed.

Example image_exe_rejected :
  construct Schemas.ImageUploadResponse
    [("url", VStr "http://x/img.exe"); ("filename", VStr "img.exe");
     ("size", VInt 10)]
  = Err [mk_error [LField "url"] (E_value_error "Invalid image format")].
Proof. reflexivity. Qed.

End ImageUpload.

(** ** The fields of a construction, one by one *)

Section Fields.
Variable c : ftype -> value -> vresult.
Variable src : list (string * value).

Lemma validate_fields_fields (fs : list (field_decl ftype)) :
  p_fields (validate_fields c src fs) = flat_map (field_binding c src) fs.
Proof.
  induction fs as [|fd r IH]; [reflexivity|].
  cbn [validate_fields flat_map]. unfold validate_field, field_binding.
  destruct (field_value c src fd) as [[v b]|e]; cbn; now rewrite IH.
Qed.

Lemma validate_fields_set (fs : list (field_decl ftype)) :
  p_set (validate_fields c src fs) = flat_map (field_supplied c src) fs.
Proof.
  induction fs as [|fd r IH]; [reflexivity|].
  cbn [validate_fields flat_map]. unfold validate_field, field_supplied.
  destruct (field_value c src fd) as [[v [|]]|e]; cbn; now rewrite IH.
Qed.

Lemma validate_fields_errors (fs : list (field_decl ftype)) :
  p_errors (validate_fields c src fs) = flat_map (field_errors c src) fs.
Proof.
  induction fs as [|fd r IH]; [reflexivity|].
  cbn [validate_fields flat_map]. unfold validate_field, field_errors.
  destruct (field_value c src fd) as [[v b]|e]; cbn; now rewrite IH.
Qed.

(** When every field passes there is no error, and the instance has
    exactly the declared fields, in order. *)
Lemma all_ok_no_errors (fs : list (field_decl ftype)) :
  forallb (field_ok c src) fs = true -> flat_map (field_errors c src) fs = [].
Proof.
  induction fs as [|fd r IH]; [reflexivity|].
  cbn. rewrite andb_true_iff. intros [H1 H2].
  unfold field_errors, field_ok in *.
  destruct (field_value c src fd); [|discriminate]. now apply IH.
Qed.

Lemma all_ok_keys (fs : list (field_decl ftype)) :
  forallb (field_ok c src) fs = true ->
  keys (flat_map (field_binding c src) fs) = field_names fs.
Proof.
  induction fs as [|fd r IH]; [reflexivity|].
  cbn. rewrite andb_true_iff. intros [H1 H2].
  unfold field_binding, field_ok in *.
  destruct (field_value c src fd) as [[v b]|]; [|discriminate].
  cbn. f_equal. now apply IH.
Qed.

(** A failing field leaves at least its own errors in the report, provided
    a failure is never an empty report. *)
Hypothesis c_err_nonempty : forall t v, c t v <> Err [].

Lemma field_value_err_nonempty (fd : field_decl ftype) :
  field_value c src fd <> Err [].
Proof.
  unfold field_value.
  destruct (lookup (f_name fd) src) as [raw|].
  - destruct (c (f_type fd) raw) as [v|e] eqn:E.
    + unfold run_validator.
      destruct (f_validator fd) as [g|]; [|discriminate].
      destruct (g v); discriminate.
    + destruct e; [now apply c_err_nonempty in E | discriminate].
  - destruct (f_default fd); discriminate.
Qed.

Lemma some_failed_errors (fs : list (field_decl ftype)) :
  forallb (field_ok c src) fs = false -> flat_map (field_errors c src) fs <> [].
Proof.
  induction fs as [|fd r IH]; [discriminate|].
  cbn. rewrite andb_false_iff. unfold field_ok at 1, field_errors at 1.
  pose proof (field_value_err_nonempty fd) as Hne.
  destruct (field_value c src fd) as [vb|e]; cbn.
  - intros [H|H]; [discriminate | now apply IH].
  - intros _ Happ. apply app_eq_nil in Happ as [-> _]. now apply Hne.
Qed.

End Fields.

(** ** The engine never fails with an empty report *)

Section EngineFacts.
Context {X : Externals}.

Lemma of_option_nonempty A (k : err_kind) (f : A -> value) (o : option A) :
  of_option k f o <> Err [].
Proof. destruct o; discriminate. Qed.

Lemma bool_of_string_nonempty (s : string) : bool_of_string s <> Err [].
Proof.
  unfold bool_of_string.
  destruct (mem_string _ true_strings); [discriminate|].
  destruct (mem_string _ false_strings); discriminate.
Qed.

Lemma coerce_items_nonempty (c : value -> vresult) :
  (forall v, c v <> Err []) ->
  forall l i, coerce_items c i l <> Err [].
Proof.
  intros Hc l. induction l as [|x r IH]; intros i; cbn; [discriminate|].
  specialize (IH (S i)). specialize (Hc x).
  destruct (c x) as [y|e], (coerce_items c (S i) r) as [ys|es];
    try discriminate; try assumption.
  - destruct e; [now contradict Hc | discriminate].
  - destruct e; [now contradict Hc | discriminate].
Qed.

Lemma finish_nonempty (mro : list string) (p : partial) :
  finish mro p <> Err [].
Proof. unfold finish. destruct (p_errors p); discriminate. Qed.

Lemma coerce_nonempty (t : ftype) : forall v, coerce t v <> Err [].
Proof.
  induction t using ftype_ind; intros v.
  - destruct v; cbn; try discriminate; apply of_option_nonempty.
  - destruct v; cbn; try discriminate; apply of_option_nonempty.
  - destruct v; cbn; discriminate.
  - destruct v; cbn; try discriminate; try apply bool_of_string_nonempty.
    + destruct (Z.eqb z 0); [discriminate|].
      destruct (Z.eqb z 1); discriminate.
    + destruct (PrimFloat.eqb f 0); [discriminate|].
      destruct (PrimFloat.eqb f 1); discriminate.
  - destruct v; cbn; try discriminate; apply of_option_nonempty.
  - destruct v; cbn; try discriminate;
      destruct (validate_email _); discriminate.
  - destruct v; cbn; try discriminate; apply of_option_nonempty.
  - destruct v; cbn; discriminate.
  - destruct v; cbn; try apply IHt. discriminate.
  - destruct v; cbn; try discriminate.
    pose proof (coerce_items_nonempty (coerce t) IHt l 0) as Hl.
    destruct (coerce_items (coerce t) 0 l) as [ys|es]; [discriminate|].
    intros H. apply Hl. now inversion H.
  - destruct v; cbn; try discriminate; try apply finish_nonempty.
    + destruct fa; [apply finish_nonempty | discriminate].
    + destruct (isinstance mro0 (class_of mro)); [discriminate|].
      destruct fa; [apply finish_nonempty | discriminate].
Qed.

Lemma construct_unfold (m : model) (payload : list (string * value)) :
  construct m payload
  = finish (m_mro m) (validate_fields coerce payload (m_fields m)).
Proof. reflexivity. Qed.

Lemma finish_validate_fields (mro : list string)
  (src : list (string * value)) (fs : list (field_decl ftype)) :
  finish mro (validate_fields coerce src fs)
  = if forallb (field_ok coerce src) fs
    then Ok (VModel mro (flat_map (field_binding coerce src) fs)
                        (flat_map (field_supplied coerce src) fs))
    else Err (flat_map (field_errors coerce src) fs).
Proof.
  unfold finish.
  rewrite validate_fields_errors, validate_fields_fields, validate_fields_set.
  destruct (forallb (field_ok coerce src) fs) eqn:E.
  - now rewrite all_ok_no_errors.
  - pose proof (some_failed_errors coerce src coerce_nonempty fs E) as Hne.
    destruct (flat_map (field_errors coerce src) fs); congruence.
Qed.

(** Construction from a mapping: all fields pass and the instance holds
    every declared field, or the report lists the errors of the fields
    that failed. *)
Lemma construct_spec (m : model) (payload : list (string * value)) :
  construct m payload
  = if forallb (field_ok coerce payload) (m_fields m)
    then Ok (VModel (m_mro m)
               (flat_map (field_binding coerce payload) (m_fields m))
               (flat_map (field_supplied coerce payload) (m_fields m)))
    else Err (flat_map (field_errors coerce payload) (m_fields m)).
Proof. rewrite construct_unfold. apply finish_validate_fields. Qed.

(** Why a field fails: it is required and absent, its value does not
    convert to its type, or its validator raises. *)
Lemma field_failure_cases (src : list (string * value))
  (fd : field_decl ftype) :
  field_ok coerce src fd = false <->
  (lookup (f_name fd) src = None /\ f_default fd = Required)
  \/ (exists raw e,
        lookup (f_name fd) src = Some raw /\ coerce (f_type fd) raw = Err e)
  \/ (exists raw v g msg,
        lookup (f_name fd) src = Some raw
        /\ coerce (f_type fd) raw = Ok v
        /\ f_validator fd = Some g /\ g v = Err msg).
Proof.
  unfold field_ok, field_value, run_validator.
  split.
  - destruct (lookup (f_name fd) src) as [raw|].
    + destruct (coerce (f_type fd) raw) as [v|e] eqn:Ec.
      * destruct (f_validator fd) as [g|] eqn:Ev; [|discriminate].
        destruct (g v) as [w|msg] eqn:Eg; [discriminate|].
        intros _. right; right. exists raw, v, g, msg. auto.
      * intros _. right; left. eauto.
    + destruct (f_default fd); [|discriminate]. intros _. now left.
  - intros [[H1 H2]|[(raw & e & H1 & H2)|(raw & v & g & msg & H1 & H2 & H3 & H4)]].
    + now rewrite H1, H2.
    + now rewrite H1, H2.
    + now rewrite H1, H2, H3, H4.
Qed.

(** C6.  For every shape (in particular every input shape) and every
    input mapping, construction either returns an instance that holds
    every declared field, which happens exactly when every field passes,
    or raises a validation error whose report is not empty and is made of
    the errors of the failing fields; a field fails exactly when it is
    required and missing, when its value does not convert to its declared
    type (enum membership included), or when its validator (the image URL
    check) raises. *)
Theorem C6_all_or_nothing (m : model) (payload : list (string * value)) :
  ((forallb (field_ok coerce payload) (m_fields m) = true
    /\ exists fields supplied,
         construct m payload = Ok (VModel (m_mro m) fields supplied)
         /\ keys fields = field_names (m_fields m))
   \/
   (forallb (field_ok coerce payload) (m_fields m) = false
    /\ exists es,
         construct m payload = Err es /\ es <> []
         /\ es = flat_map (field_errors coerce payload) (m_fields m)))
  /\ forall fd,
       field_ok coerce payload fd = false <->
       (lookup (f_name fd) payload = None /\ f_default fd = Required)
       \/ (exists raw e,
             lookup (f_name fd) payload = Some raw
             /\ coerce (f_type fd) raw = Err e)
       \/ (exists raw v g msg,
             lookup (f_name fd) payload = Some raw
             /\ coerce (f_type fd) raw = Ok v
             /\ f_validator fd = Some g /\ g v = Err msg).
Proof.
  split; [|apply field_failure_cases].
  rewrite construct_spec.
  destruct (forallb (field_ok coerce payload) (m_fields m)) eqn:E.
  - left. split; [reflexivity|]. eexists _, _. split; [reflexivity|].
    now apply all_ok_keys.
  - right. split; [reflexivity|]. eexists. split; [reflexivity|].
    split; [|reflexivity].
    now apply some_failed_errors; [apply coerce_nonempty|].
Qed.

End EngineFacts.

(** ** Reading a field back from an instance *)

Section FieldLookup.
Variable c : ftype -> value -> vresult.
Variable src : list (string * value).

Lemma lookup_binding (n : string) (fs : list (field_decl ftype)) :
  forallb (field_ok c src) fs = true ->
  lookup n (flat_map (field_binding c src) fs)
  = match find_field n fs with
    | Some fd =>
        match field_value c src fd with
        | Ok (v, _) => Some v
        | Err _ => None
        end
    | None => None
    end.
Proof.
  induction fs as [|fd r IH]; [reflexivity|].
  cbn. rewrite andb_true_iff. intros [H1 H2].
  unfold field_binding at 1. unfold field_ok in H1.
  destruct (field_value c src fd) as [[v b]|e] eqn:E; [|discriminate].
  cbn. destruct (String.eqb n (f_name fd)).
  - now rewrite E.
  - now apply IH.
Qed.

(** With the other fields passing, the construction stands or falls with
    the fields named [n]. *)
Lemma others_ok_split (n : string) (fs : list (field_decl ftype)) :
  others_ok c src n fs = true ->
  forallb (field_ok c src) fs
  = forallb (field_ok c src)
      (filter (fun fd => String.eqb n (f_name fd)) fs).
Proof.
  unfold others_ok. induction fs as [|fd r IH]; [reflexivity|].
  cbn. rewrite andb_true_iff. intros [H1 H2].
  destruct (String.eqb n (f_name fd)); cbn in *.
  - now rewrite IH.
  - now rewrite H1, IH.
Qed.

Lemma supplied_present (n : string) (fs : list (field_decl ftype)) :
  In n (flat_map (field_supplied c src) fs) -> lookup n src <> None.
Proof.
  induction fs as [|fd r IH]; [contradiction|].
  cbn. rewrite in_app_iff. intros [H|H]; [|now apply IH].
  unfold field_supplied, field_value in H.
  destruct (lookup (f_name fd) src) as [raw|] eqn:El.
  - destruct (c (f_type fd) raw); [|contradiction].
    destruct (run_validator (f_validator fd) a); [|contradiction].
    destruct H as [<-|[]]. congruence.
  - destruct (f_default fd); contradiction.
Qed.

End FieldLookup.

(** ** One field at a time *)

Section OneField.
Context {X : Externals}.

Lemma construct_is_ok (m : model) (payload : list (string * value)) :
  is_ok (construct m payload) = forallb (field_ok coerce payload) (m_fields m).
Proof.
  rewrite construct_spec.
  now destruct (forallb (field_ok coerce payload) (m_fields m)).
Qed.

Lemma construct_is_ok_on (n : string) (m : model)
  (payload : list (string * value)) :
  others_ok coerce payload n (m_fields m) = true ->
  is_ok (construct m payload)
  = forallb (field_ok coerce payload)
      (filter (fun fd => String.eqb n (f_name fd)) (m_fields m)).
Proof.
  intros H. rewrite construct_is_ok. now apply others_ok_split.
Qed.

Lemma construct_ok_fields (m : model) (payload : list (string * value)) :
  is_ok (construct m payload) = true ->
  construct m payload
  = Ok (VModel (m_mro m)
          (flat_map (field_binding coerce payload) (m_fields m))
          (flat_map (field_supplied coerce payload) (m_fields m))).
Proof.
  rewrite construct_is_ok, construct_spec. now intros ->.
Qed.

Lemma field_value_present (src : list (string * value))
  (fd : field_decl ftype) (raw : value) :
  lookup (f_name fd) src = Some raw -> f_validator fd = None ->
  field_value coerce src fd
  = match coerce (f_type fd) raw with
    | Ok v => Ok (v, true)
    | Err e => Err (at_loc (LField (f_name fd)) e)
    end.
Proof.
  intros Hl Hv. unfold field_value. rewrite Hl, Hv.
  now destruct (coerce (f_type fd) raw).
Qed.

Lemma field_ok_present (src : list (string * value))
  (fd : field_decl ftype) (raw : value) :
  lookup (f_name fd) src = Some raw -> f_validator fd = None ->
  field_ok coerce src fd = is_ok (coerce (f_type fd) raw).
Proof.
  intros Hl Hv. unfold field_ok. rewrite (field_value_present _ _ Hl Hv).
  now destruct (coerce (f_type fd) raw).
Qed.

Lemma field_value_absent (src : list (string * value))
  (fd : field_decl ftype) (d : value) :
  lookup (f_name fd) src = None -> f_default fd = Default d ->
  field_value coerce src fd = Ok (d, false).
Proof. intros Hl Hd. unfold field_value. now rewrite Hl, Hd. Qed.

End OneField.

(** ** The role of a user or an admin *)

Lemma role_of_string_spec (r : string) :
  role_of_string r <> None <-> r = "admin" \/ r = "worker".
Proof.
  unfold role_of_string.
  destruct (String.eqb_spec r "admin") as [->|Ha].
  - split; [now left | discriminate].
  - destruct (String.eqb_spec r "worker") as [->|Hw].
    + split; [now right | discriminate].
    + split; [congruence | intros [H|H]; contradiction].
Qed.

Lemma coerce_role_str_ok (r : string) :
  is_ok (coerce_role (VStr r)) = true <-> r = "admin" \/ r = "worker".
Proof.
  rewrite <- role_of_string_spec. cbn.
  destruct (role_of_string r); cbn; split; intros H;
    try reflexivity; try discriminate.
  now contradict H.
Qed.

Section Role.
Context {X : Externals}.

(** C2, as amended.  For every role string [r] and every payload that
    supplies [role = r] and is otherwise valid: constructing an Admin
    shape ([AdminBase], [AdminCreate], [AdminUpdate], [AdminResponse])
    succeeds iff [r] is exactly "admin" or "worker"; constructing
    [UserResponse], whose [role] is declared [str], succeeds whatever [r]
    is and keeps [r]. *)
Theorem C2_role_enum_on_admin_shapes
  (payload : list (string * value)) (r : string) :
  lookup "role" payload = Some (VStr r) ->
  (forall m, In m admin_shapes ->
     others_ok coerce payload "role" (m_fields m) = true ->
     (is_ok (construct m payload) = true <-> r = "admin" \/ r = "worker"))
  /\ (others_ok coerce payload "role" (m_fields Schemas.UserResponse) = true ->
      exists fields supplied,
        construct Schemas.UserResponse payload
        = Ok (VModel ["UserResponse"] fields supplied)
        /\ lookup "role" fields = Some (VStr r)).
Proof.
  intros Hl. split.
  - intros m Hin Ho. rewrite (construct_is_ok_on _ _ _ Ho).
    rewrite <- coerce_role_str_ok.
    destruct Hin as [<-|[<-|[<-|[<-|[]]]]]; cbn -[field_ok coerce_role];
      rewrite andb_true_r;
      (erewrite field_ok_present; [|exact Hl|reflexivity]); reflexivity.
  - intros Ho.
    assert (Hok : is_ok (construct Schemas.UserResponse payload) = true).
    { rewrite (construct_is_ok_on _ _ _ Ho). cbn -[field_ok].
      rewrite andb_true_r.
      erewrite field_ok_present; [|exact Hl|reflexivity]. reflexivity. }
    rewrite (construct_ok_fields _ _ Hok). eexists _, _.
    split; [reflexivity|].
    rewrite construct_is_ok in Hok. rewrite (lookup_binding _ _ _ _ Hok).
    cbn -[field_value].
    erewrite field_value_present; [|exact Hl|reflexivity]. reflexivity.
Qed.

End Role.

(** C2, as stated, fails: [UserResponse] is one of the User/Admin shapes
    and is constructed with [role = "manager"]. *)
Lemma C2_UserResponse_accepts_manager :
  construct (X := sample_externals) Schemas.UserResponse manager_user
  = Ok (VModel ["UserResponse"]
          [ ("id", VInt 7); ("username", VStr "sam");
            ("email", VStr "sam@x.org"); ("full_name", VStr "Sam Doe");
            ("role", VStr "manager"); ("branch_id", VNone);
            ("is_active", VBool true); ("is_superuser", VBool false);
            ("created_at", VDatetime sample_time) ]
          [ "id"; "username"; "email"; "full_name"; "role"; "is_active";
            "is_superuser"; "created_at" ])
  /\ "manager" <> "admin" /\ "manager" <> "worker".
Proof. split; [reflexivity | split; discriminate]. Qed.

Lemma C2_role_enum_witness :
  (is_ok (construct (X := sample_externals) Schemas.AdminBase
            (admin_payload "manager")) = true
   <-> "manager" = "admin" \/ "manager" = "worker")
  /\ is_ok (construct (X := sample_externals) Schemas.AdminBase
              (admin_payload "worker")) = true.
Proof.
  split.
  - apply (proj1 (@C2_role_enum_on_admin_shapes sample_externals
                    (admin_payload "manager") "manager" eq_refl)
                 Schemas.AdminBase); [now left | reflexivity].
  - apply (proj1 (@C2_role_enum_on_admin_shapes sample_externals
                    (admin_payload "worker") "worker" eq_refl)
                 Schemas.AdminBase); [now left | reflexivity | now right].
Defined.

(** ** Update shapes *)

Section Update.
Context {X : Externals}.

(** C3.  Every Update shape is constructed from the empty payload; the
    instance holds [None] in every field and its set of supplied fields is
    empty.  Supplying any one field as an explicit [None] gives the same
    field values, but that field is in the set of supplied fields: the two
    instances differ, so "unset" is told apart from "set to null". *)
Theorem C3_update_shapes_unset (m : model) :
  In m Schemas.update_shapes ->
  construct m [] = Ok (VModel (m_mro m) (all_none m) [])
  /\ forall n, In n (field_names (m_fields m)) ->
       construct m [(n, VNone)] = Ok (VModel (m_mro m) (all_none m) [n])
       /\ construct m [(n, VNone)] <> construct m [].
Proof.
  intros Hin.
  assert (Hempty : construct m [] = Ok (VModel (m_mro m) (all_none m) [])).
  { repeat (destruct Hin as [<-|Hin]; [reflexivity|]). destruct Hin. }
  split; [exact Hempty|].
  intros n Hn.
  assert (Hone : construct m [(n, VNone)]
                 = Ok (VModel (m_mro m) (all_none m) [n])).
  { repeat (destruct Hin as [<-|Hin];
            [repeat (destruct Hn as [<-|Hn]; [reflexivity|]); destruct Hn|]).
    destruct Hin. }
  split; [exact Hone|].
  rewrite Hone, Hempty. discriminate.
Qed.

End Update.

Lemma C3_update_shapes_witness :
  construct (X := sample_externals) Schemas.BranchUpdate []
  = Ok (VModel ["BranchUpdate"]
          [ ("name", VNone); ("location", VNone); ("address", VNone);
            ("phone", VNone); ("email", VNone); ("is_active", VNone) ] [])
  /\ construct (X := sample_externals) Schemas.BranchUpdate [("phone", VNone)]
     = Ok (VModel ["BranchUpdate"]
             [ ("name", VNone); ("location", VNone); ("address", VNone);
               ("phone", VNone); ("email", VNone); ("is_active", VNone) ]
             ["phone"]).
Proof.
  pose proof (@C3_update_shapes_unset sample_externals Schemas.BranchUpdate
                (or_introl eq_refl)) as [H0 H1].
  split; [exact H0|].
  apply (H1 "phone"). cbn. tauto.
Defined.

(** ** Daily expenses *)

Section Expense.
Context {X : Externals}.

(** C7.  [DailyExpenseCreate] and [DailyExpenseUpdate] relate
    [total_amount], [quantity] and [unit_cost] by no constraint: whatever
    floats are supplied, equal to quantity x unit_cost or not, construction
    succeeds and the instance holds each of them exactly as supplied. *)
Theorem C7_total_amount_as_supplied
  (a : expense_args) (u : expense_update_args) :
  construct Schemas.DailyExpenseCreate (expense_payload a)
  = Ok (VModel ["DailyExpenseCreate"; "DailyExpenseBase"]
          (expense_fields a ++ [("branch_id", VInt (a_branch_id a))])
          (expense_supplied a ++ ["branch_id"]))
  /\ construct Schemas.DailyExpenseUpdate (expense_update_payload u)
     = Ok (VModel ["DailyExpenseUpdate"]
             (expense_update_fields u) (expense_update_supplied u)).
Proof.
  split.
  - destruct a as [c i d q un uc t e r v b].
    destruct d, q, un, e, r, v; reflexivity.
  - destruct u as [c i d q un uc t e r v].
    destruct c, i, d, q, un, uc, t, e, r, v; reflexivity.
Qed.

(** The scenario of the specification, with a total that is not
    quantity x unit cost. *)
Example expense_total_not_product :
  let a := mk_expense_args "Produce" "Tomatoes" None (Some 4%float) None
             2.5%float 25%float None None None 1 in
  PrimFloat.eqb (PrimFloat.mul 4 2.5) 25 = false
  /\ exists supplied,
       construct Schemas.DailyExpenseCreate (expense_payload a)
       = Ok (VModel ["DailyExpenseCreate"; "DailyExpenseBase"]
               [ ("category", VStr "Produce"); ("item_name", VStr "Tomatoes");
                 ("description", VNone); ("quantity", VFloat 4);
                 ("unit", VNone); ("unit_cost", VFloat 2.5);
                 ("total_amount", VFloat 25); ("expense_date", VNone);
                 ("receipt_number", VNone); ("vendor", VNone);
                 ("branch_id", VInt 1) ] supplied).
Proof. split; [reflexivity | eexists; reflexivity]. Qed.

(** ** Orders *)

(** C8.  [OrderCreate(branch_id=1, items=[])] is constructed: the empty
    list of items is accepted, and [order_type], absent, is "dine_in". *)
Theorem C8_empty_order :
  construct Schemas.OrderCreate [("branch_id", VInt 1); ("items", VList [])]
  = Ok (VModel ["OrderCreate"]
          [ ("branch_id", VInt 1); ("customer_name", VNone);
            ("customer_email", VNone); ("order_type", VStr "dine_in");
            ("items", VList []) ]
          ["branch_id"; "items"]).
Proof. reflexivity. Qed.

End Expense.

(** ** A payload that is valid but for one field *)

Lemma find_field_filter (n : string) (fs : list (field_decl ftype)) :
  find_field n fs
  = hd_error (filter (fun fd => String.eqb n (f_name fd)) fs).
Proof.
  induction fs as [|fd r IH]; [reflexivity|].
  cbn. now destruct (String.eqb n (f_name fd)).
Qed.

Lemma find_field_name (n : string) (fs : list (field_decl ftype))
  (fd : field_decl ftype) :
  find_field n fs = Some fd -> f_name fd = n /\ In fd fs.
Proof.
  induction fs as [|fd0 r IH]; [discriminate|].
  cbn. destruct (String.eqb_spec n (f_name fd0)) as [E|E].
  - intros H. inversion H; subst. split; [reflexivity | now left].
  - intros H. destruct (IH H) as [H1 H2]. split; [exact H1 | now right].
Qed.

Section OnField.
Context {X : Externals}.

(** When the other fields pass and the one field named [n] yields [w], the
    instance is built and holds [w] under [n]. *)
Lemma construct_on_field (m : model) (payload : list (string * value))
  (n : string) (fd : field_decl ftype) (w : value) (b : bool) :
  others_ok coerce payload n (m_fields m) = true ->
  filter (fun fd => String.eqb n (f_name fd)) (m_fields m) = [fd] ->
  field_value coerce payload fd = Ok (w, b) ->
  construct m payload
  = Ok (VModel (m_mro m)
          (flat_map (field_binding coerce payload) (m_fields m))
          (flat_map (field_supplied coerce payload) (m_fields m)))
  /\ lookup n (flat_map (field_binding coerce payload) (m_fields m)) = Some w.
Proof.
  intros Ho Hf Hv.
  assert (Hok : is_ok (construct m payload) = true).
  { rewrite (construct_is_ok_on _ _ _ Ho), Hf. cbn.
    unfold field_ok. now rewrite Hv. }
  split; [now apply construct_ok_fields|].
  rewrite construct_is_ok in Hok.
  rewrite (lookup_binding _ _ _ _ Hok), find_field_filter, Hf. cbn.
  now rewrite Hv.
Qed.

(** When the one field named [n] fails, so does the construction. *)
Lemma construct_on_field_err (m : model) (payload : list (string * value))
  (n : string) (fd : field_decl ftype) (e : ValidationError) :
  others_ok coerce payload n (m_fields m) = true ->
  filter (fun fd => String.eqb n (f_name fd)) (m_fields m) = [fd] ->
  field_value coerce payload fd = Err e ->
  is_ok (construct m payload) = false.
Proof.
  intros Ho Hf Hv. rewrite (construct_is_ok_on _ _ _ Ho), Hf. cbn.
  unfold field_ok. now rewrite Hv.
Qed.

End OnField.

(** ** Email addresses *)

Section Email.
Context {X : Externals}.

Lemma coerce_email_str (v : string) :
  is_ok (coerce_email (VStr v)) = is_ok (validate_email v).
Proof. cbn. now destruct (validate_email v). Qed.

(** C9, as amended.  For every string [v], however malformed as an
    address, and
    every payload that is otherwise valid: [BranchBase] and [BranchCreate]
    with [email = v], [OrderCreate] with [customer_email = v] and
    [UserResponse] with [email = v] are constructed and hold [v]
    unchanged.  The Admin shapes, whose [email] is declared [EmailStr],
    are constructed iff the email validator accepts [v]; across the whole
    file the classes with an [EmailStr] field are [AdminBase],
    [AdminCreate], [AdminUpdate] and, through inheritance from
    [AdminBase], [AdminResponse]. *)
Theorem C9_email_checked_only_on_admin
  (payload : list (string * value)) (v : string) :
  (forall m n, In (m, n) plain_email_fields ->
     lookup n payload = Some (VStr v) ->
     others_ok coerce payload n (m_fields m) = true ->
     exists fields supplied,
       construct m payload = Ok (VModel (m_mro m) fields supplied)
       /\ lookup n fields = Some (VStr v))
  /\ (forall m, In m admin_shapes ->
        lookup "email" payload = Some (VStr v) ->
        others_ok coerce payload "email" (m_fields m) = true ->
        (is_ok (construct m payload) = true
         <-> is_ok (validate_email v) = true))
  /\ map (fun m => (m_name m, email_checked m))
         (filter (fun m => negb (Nat.eqb (List.length (email_checked m)) 0))
                 Schemas.all_shapes)
     = [ ("AdminBase", ["email"]); ("AdminCreate", ["email"]);
         ("AdminUpdate", ["email"]); ("AdminResponse", ["email"]) ].
Proof.
  split; [|split; [|reflexivity]].
  - intros m n Hin Hl Ho.
    assert (Hfd : exists fd,
               filter (fun fd => String.eqb n (f_name fd)) (m_fields m) = [fd]
               /\ field_value coerce payload fd = Ok (VStr v, true)).
    { repeat (destruct Hin as [E|Hin];
              [inversion E; subst m n; eexists; split; [reflexivity|];
               erewrite field_value_present; [|exact Hl|reflexivity];
               reflexivity|]).
      destruct Hin. }
    destruct Hfd as (fd & Hf & Hv).
    destruct (construct_on_field _ _ _ Ho Hf Hv) as [Hc Hlk]. eauto.
  - intros m Hin Hl Ho. rewrite (construct_is_ok_on _ _ _ Ho).
    assert (Hfd : forallb (field_ok coerce payload)
                    (filter (fun fd => String.eqb "email" (f_name fd))
                            (m_fields m))
                  = is_ok (coerce_email (VStr v))).
    { repeat (destruct Hin as [<-|Hin];
              [cbn -[field_ok coerce_email]; rewrite andb_true_r;
               erewrite field_ok_present; [|exact Hl|reflexivity];
               reflexivity|]).
      destruct Hin. }
    rewrite Hfd, coerce_email_str. reflexivity.
Qed.

End Email.

Lemma C9_email_witness :
  exists fields supplied,
    construct (X := sample_externals) Schemas.BranchCreate
      [("name", VStr "Harbour"); ("email", VStr "not an address")]
    = Ok (VModel ["BranchCreate"; "BranchBase"] fields supplied)
    /\ lookup "email" fields = Some (VStr "not an address").
Proof.
  apply (proj1 (@C9_email_checked_only_on_admin sample_externals
                  [("name", VStr "Harbour"); ("email", VStr "not an address")]
                  "not an address")
               Schemas.BranchCreate "email").
  - right. now left.
  - reflexivity.
  - reflexivity.
Defined.

Example admin_rejects_malformed_email :
  construct (X := sample_externals) Schemas.AdminBase
    [("username", VStr "sam"); ("email", VStr "not an address")]
  = Err [mk_error [LField "email"]
           (email_error "An email address must have an @-sign.")].
Proof. reflexivity. Qed.

(** C9, as stated, fails: [AdminResponse] is none of [AdminBase],
    [AdminCreate], [AdminUpdate], and its [email], inherited from
    [AdminBase] as [EmailStr], is checked: the payload that is accepted
    with a well-formed address is rejected, on [email], with a malformed
    one. *)
Lemma C9_AdminResponse_checks_email :
  is_ok (construct (X := sample_externals) Schemas.AdminResponse
           (admin_response_payload "sam@x.org")) = true
  /\ construct (X := sample_externals) Schemas.AdminResponse
       (admin_response_payload "not an address")
     = Err [mk_error [LField "email"]
              (email_error "An email address must have an @-sign.")]
  /\ ~ In "AdminResponse" ["AdminBase"; "AdminCreate"; "AdminUpdate"].
Proof.
  split; [reflexivity|]. split; [reflexivity|].
  cbn. intros H. repeat (destruct H as [H|H]; [discriminate|]). exact H.
Qed.

(** ** The default role *)

Section DefaultRole.
Context {X : Externals}.

(** C10.  For every payload without [role] that is otherwise valid,
    [AdminBase] and [AdminCreate] are constructed, the instance holds the
    member [UserRole.WORKER], whose value is "worker", under [role], and
    [role] is not among the fields that were supplied. *)
Theorem C10_role_defaults_to_worker
  (m : model) (payload : list (string * value)) :
  In m [Schemas.AdminBase; Schemas.AdminCreate] ->
  lookup "role" payload = None ->
  others_ok coerce payload "role" (m_fields m) = true ->
  exists fields supplied,
    construct m payload = Ok (VModel (m_mro m) fields supplied)
    /\ lookup "role" fields = Some (VRole WORKER)
    /\ ~ In "role" supplied
    /\ UserRole_value WORKER = "worker".
Proof.
  intros Hin Hl Ho.
  assert (Hf : filter (fun fd => String.eqb "role" (f_name fd)) (m_fields m)
               = [dflt "role" TUserRole (VRole WORKER)]).
  { destruct Hin as [<-|[<-|[]]]; reflexivity. }
  assert (Hv : field_value coerce payload
                 (dflt "role" TUserRole (VRole WORKER))
               = Ok (VRole WORKER, false)).
  { now apply field_value_absent. }
  destruct (construct_on_field _ _ _ Ho Hf Hv) as [Hc Hlk].
  eexists _, _. split; [exact Hc|]. split; [exact Hlk|].
  split; [|reflexivity].
  intros Hs. apply supplied_present in Hs. contradiction.
Qed.

End DefaultRole.

Lemma C10_role_default_witness :
  exists fields supplied,
    construct (X := sample_externals) Schemas.AdminCreate
      [ ("username", VStr "sam"); ("email", VStr "sam@x.org");
        ("password", VStr "s3cret") ]
    = Ok (VModel ["AdminCreate"; "AdminBase"] fields supplied)
    /\ lookup "role" fields = Some (VRole WORKER)
    /\ ~ In "role" supplied
    /\ UserRole_value WORKER = "worker".
Proof.
  apply (@C10_role_defaults_to_worker sample_externals Schemas.AdminCreate).
  - right. now left.
  - reflexivity.
  - reflexivity.
Defined.

(** ** Output shapes as projections of stored records *)

Lemma same_declared_model (mro : list string) (fa : bool)
  (fs : list (field_decl ftype)) (v1 v2 : value) :
  same_declared (TModel mro fa fs) v1 v2 <->
  v1 = v2
  \/ exists r1 r2,
       ((v1 = VObj r1 /\ v2 = VObj r2) \/ (v1 = VDict r1 /\ v2 = VDict r2))
       /\ records_alike fs r1 r2.
Proof.
  cbn. unfold records_alike.
  assert (Hgo : forall r1 r2 l,
    (fix go (l : list (field_decl ftype)) : Prop :=
       match l with
       | [] => True
       | fd :: r =>
           alike (same_declared (f_type fd))
                 (lookup (f_name fd) r1) (lookup (f_name fd) r2)
           /\ go r
       end) l
    <-> Forall (fun fd => alike (same_declared (f_type fd))
                  (lookup (f_name fd) r1) (lookup (f_name fd) r2)) l).
  { intros r1 r2 l. induction l as [|fd r IH]; split; intros H.
    - constructor.
    - exact I.
    - destruct H as [H1 H2]. constructor; [exact H1 | now apply IH].
    - inversion H; subst. split; [assumption | now apply IH]. }
  split; (intros [H|(r1 & r2 & Hk & H)]; [now left|right]);
    exists r1, r2; (split; [exact Hk|]); now apply Hgo.
Qed.

Lemma same_declared_refl (t : ftype) (v : value) : same_declared t v v.
Proof.
  induction t as [| | | | | | | | t IHt | t IHt | mro fa fs IHfs]
    using ftype_ind; cbn; try reflexivity; try (now left).
  exact IHt.
Qed.

Lemma same_declared_none (t : ftype) :
  forall v, (same_declared t VNone v -> v = VNone)
            /\ (same_declared t v VNone -> v = VNone).
Proof.
  induction t as [| | | | | | | | t IHt | t IHt | mro fa fs IHfs]
    using ftype_ind; intros v; cbn;
    try (split; intros Hs; congruence).
  - apply IHt.
  - split; (intros [Hs|(l1 & l2 & H1 & H2 & _)]; [congruence | discriminate]).
  - split;
      (intros [Hs|(r1 & r2 & [[H1 H2]|[H1 H2]] & _)];
       [congruence | discriminate | discriminate]).
Qed.

Section Projection.
Context {X : Externals}.

Lemma field_value_alike (S : ftype -> value -> value -> Prop)
  (r1 r2 : list (string * value)) (fd : field_decl ftype) :
  (forall a b, S (f_type fd) a b -> coerce (f_type fd) a = coerce (f_type fd) b) ->
  alike (S (f_type fd)) (lookup (f_name fd) r1) (lookup (f_name fd) r2) ->
  field_value coerce r1 fd = field_value coerce r2 fd.
Proof.
  intros Hc Ha. unfold field_value.
  destruct (lookup (f_name fd) r1) as [a|], (lookup (f_name fd) r2) as [b|];
    cbn in Ha; try contradiction; [|reflexivity].
  now rewrite (Hc a b Ha).
Qed.

Lemma validate_fields_alike (r1 r2 : list (string * value))
  (fs : list (field_decl ftype)) :
  Forall (fun fd => forall a b, same_declared (f_type fd) a b ->
                      coerce (f_type fd) a = coerce (f_type fd) b) fs ->
  records_alike fs r1 r2 ->
  validate_fields coerce r1 fs = validate_fields coerce r2 fs.
Proof.
  intros Hc Ha. induction fs as [|fd r IH]; [reflexivity|].
  inversion Hc; subst. inversion Ha; subst.
  cbn. unfold validate_field.
  rewrite (field_value_alike same_declared r1 r2 fd); [|assumption..].
  now rewrite IH.
Qed.

Lemma coerce_items_alike (t : ftype) (l1 l2 : list value) :
  (forall a b, same_declared t a b -> coerce t a = coerce t b) ->
  Forall2 (same_declared t) l1 l2 ->
  forall i, coerce_items (coerce t) i l1 = coerce_items (coerce t) i l2.
Proof.
  intros Hc H. induction H as [|a b l1 l2 Hab Hl IH]; intros i;
    [reflexivity|].
  cbn. now rewrite (Hc a b Hab), IH.
Qed.

(** Raw values that agree on what a type declares are converted to the
    same result, instance or error report. *)
Lemma coerce_same_declared (t : ftype) :
  forall v1 v2, same_declared t v1 v2 -> coerce t v1 = coerce t v2.
Proof.
  induction t as [| | | | | | | | t IHt | t IHt | mro fa fs IHfs]
    using ftype_ind; intros v1 v2 Hs;
    try (cbn in Hs; now subst).
  - cbn in Hs. pose proof (same_declared_none t v2) as [Hn1 _].
    pose proof (same_declared_none t v1) as [_ Hn2].
    destruct v1; [now rewrite (Hn1 Hs) | ..];
      (destruct v2; [now specialize (Hn2 Hs)|..]); cbn; now apply IHt.
  - cbn in Hs. destruct Hs as [->|(l1 & l2 & -> & -> & Hl)]; [reflexivity|].
    cbn. now rewrite (@coerce_items_alike t l1 l2 IHt Hl 0).
  - apply same_declared_model in Hs.
    destruct Hs as [->|(r1 & r2 & [[-> ->]|[-> ->]] & Ha)]; [reflexivity|..];
      cbn; rewrite (@validate_fields_alike r1 r2 fs IHfs Ha); reflexivity.
Qed.

Lemma model_validate_record (m : model) (r : list (string * value)) :
  model_validate m (VObj r)
  = if m_from_attributes m then construct m r else fail (E_type N_model).
Proof. reflexivity. Qed.

Lemma coerce_items_keep (t : ftype) (l : list value) :
  (forall v, conforms t v -> coerce t v = Ok v) ->
  Forall (conforms t) l ->
  forall i, coerce_items (coerce t) i l = Ok l.
Proof.
  intros Hc Hl. induction Hl as [|x l Hx Hl IH]; intros i; [reflexivity|].
  cbn. now rewrite (Hc x Hx), IH.
Qed.

(** A value that already has the declared type is taken as it is. *)
Lemma coerce_keeps (t : ftype) :
  keeps_values t = true ->
  forall v, conforms t v -> coerce t v = Ok v.
Proof.
  induction t as [| | | | | | | | t IH | t IH | mro fa fs IH]
    using ftype_ind; intros Hk v Hc; try discriminate;
    try (destruct Hc as [a ->]; reflexivity).
  - cbn in Hk. destruct Hc as [->|Hc]; [reflexivity|].
    specialize (IH Hk v Hc). destruct v; try exact IH. reflexivity.
  - cbn in Hk. destruct Hc as (l & -> & Hl). cbn.
    now rewrite (@coerce_items_keep t l (IH Hk) Hl 0).
Qed.

(** C4.  For every output shape and every two stored records that agree
    on the declared fields of the shape -- nested records agreeing on the
    declared fields of the nested shape -- and differ in any other
    attribute, the two records are projected to the same result.  When
    every declared field of the record passes, the result is an instance
    that has the declared fields, in declaration order, and no other;
    each declared field holds the validated value of the record's
    attribute of that name, which is the attribute itself when it already
    has the declared type, or the declared default when the record has
    no such attribute.  When some declared field fails, the result is a
    non-empty error report. *)
Theorem C4_projection_drops_undeclared
  (m : model) (r1 r2 : list (string * value)) :
  In m Schemas.output_shapes ->
  records_alike (m_fields m) r1 r2 ->
  model_validate m (VObj r1) = model_validate m (VObj r2)
  /\ (forallb (field_ok coerce r1) (m_fields m) = true ->
      exists fields supplied,
        model_validate m (VObj r1) = Ok (VModel (m_mro m) fields supplied)
        /\ keys fields = field_names (m_fields m)
        /\ (forall n fd, find_field n (m_fields m) = Some fd ->
              exists v b,
                field_value coerce r1 fd = Ok (v, b)
                /\ lookup n fields = Some v)
        /\ (forall n fd raw,
              find_field n (m_fields m) = Some fd ->
              lookup n r1 = Some raw ->
              keeps_values (f_type fd) = true ->
              conforms (f_type fd) raw ->
              lookup n fields = Some raw)
        /\ (forall n fd,
              find_field n (m_fields m) = Some fd ->
              lookup n r1 = None ->
              exists d, f_default fd = Default d /\ lookup n fields = Some d))
  /\ (forallb (field_ok coerce r1) (m_fields m) = false ->
      exists es, model_validate m (VObj r1) = Err es /\ es <> []).
Proof.
  intros Hin Ha.
  assert (Hfa : m_from_attributes m = true).
  { assert (H : forallb m_from_attributes Schemas.output_shapes = true)
      by reflexivity.
    rewrite forallb_forall in H. now apply H. }
  assert (Hnv : forall fd, In fd (m_fields m) -> f_validator fd = None).
  { assert (H : forallb (fun m => forallb (fun fd =>
                   match f_validator fd with
                   | None => true | Some _ => false end) (m_fields m))
                  Schemas.output_shapes = true) by reflexivity.
    rewrite forallb_forall in H. specialize (H m Hin).
    rewrite forallb_forall in H. intros fd Hfd. specialize (H fd Hfd).
    now destruct (f_validator fd). }
  split; [|split].
  - apply (coerce_same_declared (TModelOf m)).
    apply same_declared_model. right. exists r1, r2. split; [now left|].
    exact Ha.
  - intros Hok. rewrite model_validate_record, Hfa, construct_spec, Hok.
    eexists _, _. split; [reflexivity|].
    split; [now apply all_ok_keys|].
    assert (Hval : forall n fd, find_field n (m_fields m) = Some fd ->
              exists v b,
                field_value coerce r1 fd = Ok (v, b)
                /\ lookup n (flat_map (field_binding coerce r1) (m_fields m))
                   = Some v).
    { intros n fd Hf. rewrite (lookup_binding _ _ _ _ Hok), Hf.
      destruct (find_field_name _ _ Hf) as [_ Hfd].
      pose proof Hok as Hall. rewrite forallb_forall in Hall.
      specialize (Hall fd Hfd). unfold field_ok in Hall.
      destruct (field_value coerce r1 fd) as [[v b]|]; [|discriminate].
      now exists v, b. }
    split; [exact Hval|]. split.
    + intros n fd raw Hf Hl Hk Hc.
      destruct (Hval n fd Hf) as (v & b & Hv & Hlk). rewrite Hlk.
      destruct (find_field_name _ _ Hf) as [Hn Hfd].
      rewrite <- Hn in Hl.
      rewrite (field_value_present _ _ Hl (Hnv fd Hfd)) in Hv.
      rewrite (coerce_keeps _ Hk _ Hc) in Hv. now inversion Hv.
    + intros n fd Hf Hl.
      destruct (Hval n fd Hf) as (v & b & Hv & Hlk). rewrite Hlk.
      destruct (find_field_name _ _ Hf) as [Hn Hfd].
      unfold field_value in Hv. rewrite Hn, Hl in Hv.
      destruct (f_default fd) as [|d]; [discriminate|].
      exists d. split; [reflexivity|]. now inversion Hv.
  - intros Hok. rewrite model_validate_record, Hfa, construct_spec, Hok.
    eexists. split; [reflexivity|].
    now apply some_failed_errors; [apply coerce_nonempty|].
Qed.

End Projection.

Lemma lookup_some_in_keys (n : string) (m : list (string * value))
  (v : value) :
  lookup n m = Some v -> In n (keys m).
Proof.
  induction m as [|[k x] r IH]; [discriminate|].
  cbn. destruct (String.eqb_spec n k) as [->|_]; [now left|].
  intros H. right. now apply IH.
Qed.

Lemma stored_admins_alike :
  records_alike (m_fields Schemas.AdminResponse)
    (stored_admin "$2b$12$abc" 0) (stored_admin "$2b$12$xyz" 4).
Proof.
  unfold records_alike.
  repeat (apply Forall_cons; [cbn; try reflexivity|]); [|apply Forall_nil].
  right. eexists _, _. split; [left; split; reflexivity|].
  cbn. repeat split; reflexivity.
Qed.

Lemma C4_projection_witness :
  model_validate (X := sample_externals) Schemas.AdminResponse
    (VObj (stored_admin "$2b$12$abc" 0))
  = model_validate (X := sample_externals) Schemas.AdminResponse
      (VObj (stored_admin "$2b$12$xyz" 4))
  /\ exists fields supplied,
       model_validate (X := sample_externals) Schemas.AdminResponse
         (VObj (stored_admin "$2b$12$abc" 0))
       = Ok (VModel ["AdminResponse"; "AdminBase"] fields supplied)
       /\ keys fields
          = [ "username"; "email"; "full_name"; "role"; "branch_id"; "id";
              "is_active"; "is_superuser"; "created_at"; "last_login";
              "branch" ]
       /\ lookup "username" fields = Some (VStr "sam")
       /\ lookup "role" fields = Some (VRole ADMIN)
       /\ lookup "hashed_password" fields = None.
Proof.
  destruct (@C4_projection_drops_undeclared sample_externals
              Schemas.AdminResponse (stored_admin "$2b$12$abc" 0)
              (stored_admin "$2b$12$xyz" 4))
    as (Hsame & Hok & _).
  - cbn. tauto.
  - exact stored_admins_alike.
  - split; [exact Hsame|].
    destruct (Hok eq_refl) as (fields & supplied & Hv & Hk & _ & Hraw & _).
    exists fields, supplied. split; [exact Hv|]. split; [exact Hk|].
    split; [|split].
    + apply (Hraw "username" (req "username" TStr) (VStr "sam"));
        [reflexivity | reflexivity | reflexivity | now exists "sam"%string].
    + apply (Hraw "role"
               (dflt "role" TUserRole (VRole WORKER)) (VRole ADMIN));
        [reflexivity | reflexivity | reflexivity | now exists ADMIN].
    + destruct (lookup "hashed_password" fields) as [v|] eqn:E;
        [|reflexivity].
      pose proof (lookup_some_in_keys _ _ E) as Hin.
      rewrite Hk in Hin. cbn in Hin.
      repeat (destruct Hin as [Hin|Hin]; [discriminate|]). destruct Hin.
Defined.

(** What the projection of the stored admin is: the password hash and the
    other internal attributes are gone, at the top and in the nested
    branch. *)
Example stored_admin_projected :
  model_validate (X := sample_externals) Schemas.AdminResponse
    (VObj (stored_admin "$2b$12$abc" 0))
  = Ok (VModel ["AdminResponse"; "AdminBase"]
          [ ("username", VStr "sam"); ("email", VStr "sam@x.org");
            ("full_name", VNone); ("role", VRole ADMIN);
            ("branch_id", VInt 3); ("id", VInt 1); ("is_active", VBool true);
            ("is_superuser", VBool false);
            ("created_at", VDatetime sample_time); ("last_login", VNone);
            ("branch",
             VModel ["BranchResponse"; "BranchBase"]
               [ ("name", VStr "Harbour"); ("location", VNone);
                 ("address", VNone); ("phone", VNone); ("email", VNone);
                 ("is_active", VBool true); ("id", VInt 3);
                 ("created_at", VDatetime sample_time);
                 ("updated_at", VDatetime sample_time) ]
               [ "name"; "location"; "address"; "phone"; "email";
                 "is_active"; "id"; "created_at"; "updated_at" ]) ]
          [ "username"; "email"; "full_name"; "role"; "branch_id"; "id";
            "is_active"; "is_superuser"; "created_at"; "last_login";
            "branch" ]).
Proof. reflexivity. Qed.

(** ** Instances and their dump *)

Lemma conforms_model (mro : list string) (fa : bool)
  (fs : list (field_decl ftype)) (v : value) :
  conforms (TModel mro fa fs) v <->
  exists fields supplied,
    v = VModel mro fields supplied /\ Forall2 holds fs fields.
Proof.
  cbn.
  assert (Hgo : forall l xs,
    (fix go (l : list (field_decl ftype)) (xs : list (string * value))
       : Prop :=
       match l, xs with
       | [], [] => True
       | fd :: r, (k, x) :: xr =>
           k = f_name fd
           /\ (conforms (f_type fd) x \/ f_default fd = Default x)
           /\ go r xr
       | _, _ => False
       end) l xs
    <-> Forall2 holds l xs).
  { induction l as [|fd r IH]; intros [|[k x] xr]; split; intros H.
    - constructor.
    - exact I.
    - contradiction.
    - inversion H.
    - contradiction.
    - inversion H.
    - destruct H as (H1 & H2 & H3).
      constructor; [now split | now apply IH].
    - inversion H as [|? ? ? ? Hh Hr]; subst. destruct Hh as [H1 H2].
      split; [exact H1|]. split; [exact H2 | now apply IH]. }
  split; intros (fields & supplied & -> & H); exists fields, supplied;
    (split; [reflexivity|]); now apply Hgo.
Qed.

Lemma model_dump_model (mro : list string) (m : list (string * value))
  (s : list string) :
  model_dump (VModel mro m s) = VDict (dump_bindings m).
Proof.
  cbn. f_equal. induction m as [|[k x] r IH]; [reflexivity|].
  cbn. now rewrite IH.
Qed.

Lemma lookup_dump_bindings (n : string) (m : list (string * value)) :
  lookup n (dump_bindings m) = option_map model_dump (lookup n m).
Proof.
  induction m as [|[k x] r IH]; [reflexivity|].
  cbn. destruct (String.eqb n k); [reflexivity | exact IH].
Qed.

Lemma model_dump_none (v : value) : model_dump v = VNone -> v = VNone.
Proof. destruct v; cbn; congruence. Qed.

(** What an instance holds under a name: the value of the first field so
    named. *)
Lemma lookup_holds (n : string) (fs : list (field_decl ftype))
  (fields : list (string * value)) :
  Forall2 holds fs fields ->
  match find_field n fs with
  | Some fd =>
      exists x, lookup n fields = Some x
                /\ (conforms (f_type fd) x \/ f_default fd = Default x)
  | None => lookup n fields = None
  end.
Proof.
  induction 1 as [|fd [k x] fs fields [Hk Hx] Hr IH]; [reflexivity|].
  cbn in *. subst k. destruct (String.eqb n (f_name fd)).
  - now exists x.
  - exact IH.
Qed.

(** ** Re-parsing the dump of an output instance *)

Section Reparse.
Context {X : Externals}.

Lemma reparsable_model (mro' mro : list string) (fa' fa : bool)
  (fs' fs : list (field_decl ftype)) :
  reparsable (TModel mro' fa' fs') (TModel mro fa fs)
  <-> Forall (field_reparsable fs) fs'.
Proof.
  cbn. induction fs' as [|fd' r IH]; split; intros H.
  - constructor.
  - exact I.
  - destruct H as [H1 H2]. constructor; [exact H1 | now apply IH].
  - inversion H; subst. split; [assumption | now apply IH].
Qed.

Lemma coerce_optional_of (t : ftype) (v w : value) :
  coerce t v = Ok w ->
  (v = VNone /\ coerce (TOptional t) v = Ok VNone)
  \/ coerce (TOptional t) v = Ok w.
Proof. destruct v; cbn; intros H; auto. Qed.

Lemma reparse_items (t' t : ftype) (l : list value) :
  (forall v, conforms t v ->
     exists w, coerce t' (model_dump v) = Ok w /\ agree v w) ->
  Forall (conforms t) l ->
  forall i, exists ws,
    coerce_items (coerce t') i (map model_dump l) = Ok ws
    /\ Forall2 agree l ws.
Proof.
  intros Hc Hl. induction Hl as [|x l Hx Hl IH]; intros i.
  - exists []. split; [reflexivity | constructor].
  - destruct (Hc x Hx) as (w & Hw & Ha).
    destruct (IH (S i)) as (ws & Hws & Has).
    exists (w :: ws). cbn. rewrite Hw, Hws.
    split; [reflexivity | now constructor].
Qed.

(** One field of the input class, read from the dumped fields of a valid
    output instance. *)
Lemma reparse_field (fs : list (field_decl ftype))
  (fields : list (string * value)) (fd' : field_decl ftype) :
  (forall t v, reparsable (f_type fd') t -> conforms t v ->
     exists w, coerce (f_type fd') (model_dump v) = Ok w /\ agree v w) ->
  Forall2 holds fs fields ->
  field_reparsable fs fd' ->
  exists w b,
    field_value coerce (dump_bindings fields) fd' = Ok (w, b)
    /\ forall x, lookup (f_name fd') fields = Some x -> agree x w.
Proof.
  intros IH Hh [Hv Hf].
  pose proof (lookup_holds (f_name fd') Hh) as Hl.
  destruct (find_field (f_name fd') fs) as [fd|].
  - destruct Hl as (x & Hx & Hc). destruct Hf as [Hr Hd].
    assert (Hw : exists w,
               coerce (f_type fd') (model_dump x) = Ok w /\ agree x w).
    { destruct Hc as [Hc|Hc]; [now apply (IH (f_type fd))|].
      rewrite Hc in Hd. destruct Hd as [Hd|Hd]; [|exact Hd].
      now apply (IH (f_type fd)). }
    destruct Hw as (w & Hw & Ha). exists w, true. split.
    + erewrite field_value_present; [|
        rewrite lookup_dump_bindings, Hx; reflexivity | exact Hv].
      now rewrite Hw.
    + intros x' Hx'. rewrite Hx in Hx'. now inversion Hx'; subst.
  - destruct (f_default fd') as [|d] eqn:Ed; [now contradict Hf|].
    exists d, false. split.
    + apply field_value_absent; [|exact Ed].
      now rewrite lookup_dump_bindings, Hl.
    + intros x Hx. congruence.
Qed.

(** All fields of the input class. *)
Lemma reparse_fields (fs fs' : list (field_decl ftype))
  (fields : list (string * value)) :
  Forall (fun fd' => forall t v, reparsable (f_type fd') t -> conforms t v ->
            exists w, coerce (f_type fd') (model_dump v) = Ok w /\ agree v w)
         fs' ->
  Forall2 holds fs fields ->
  Forall (field_reparsable fs) fs' ->
  forallb (field_ok coerce (dump_bindings fields)) fs' = true
  /\ forall n x w,
       lookup n fields = Some x ->
       lookup n (flat_map (field_binding coerce (dump_bindings fields)) fs')
       = Some w ->
       agree x w.
Proof.
  intros IH Hh Hr.
  assert (Hall : Forall (fun fd' => exists w b,
             field_value coerce (dump_bindings fields) fd' = Ok (w, b)
             /\ forall x, lookup (f_name fd') fields = Some x -> agree x w)
            fs').
  { rewrite Forall_forall in *. intros fd' Hin.
    apply reparse_field with (fs := fs);
      [exact (IH fd' Hin) | exact Hh | exact (Hr fd' Hin)]. }
  assert (Hok : forallb (field_ok coerce (dump_bindings fields)) fs' = true).
  { apply forallb_forall. intros fd' Hin.
    rewrite Forall_forall in Hall.
    destruct (Hall fd' Hin) as (w & b & Hw & _).
    unfold field_ok. now rewrite Hw. }
  split; [exact Hok|].
  intros n x w Hx. rewrite (lookup_binding _ _ _ _ Hok).
  destruct (find_field n fs') as [fd'|] eqn:Ef; [|discriminate].
  apply find_field_name in Ef as [<- Hin].
  rewrite Forall_forall in Hall.
  destruct (Hall fd' Hin) as (w' & b & Hw & Ha).
  rewrite Hw. intros E. inversion E; subst. now apply Ha.
Qed.

(** Re-parsing the dump of any valid value of [t] at a type that
    re-parses [t] succeeds, and the result agrees with the value. *)
Lemma reparse (t' : ftype) :
  forall t v, reparsable t' t -> conforms t v ->
    exists w, coerce t' (model_dump v) = Ok w /\ agree v w.
Proof.
  induction t' as [| | | | | | | | t' IH | t' IH | mro' fa' fs' IH]
    using ftype_ind; intros t v Hr Hc; cbn in Hr; try contradiction;
    try (subst t; destruct Hc as [a ->]; eexists; split;
         [reflexivity | constructor]).
  - destruct t; try contradiction. cbn in Hc.
    destruct Hc as [->|Hc]; [exists VNone; split; [reflexivity|constructor]|].
    destruct (IH _ _ Hr Hc) as (w & Hw & Ha).
    destruct (coerce_optional_of _ _ Hw) as [[Hn Ho]|Ho].
    + apply model_dump_none in Hn. subst v.
      exists VNone. split; [exact Ho | constructor].
    + exists w. now split.
  - destruct t; try contradiction. cbn in Hc.
    destruct Hc as (l & -> & Hl).
    destruct (@reparse_items t' t l (fun v => IH t v Hr) Hl 0)
      as (ws & Hws & Ha).
    exists (VList ws). split; [|now constructor].
    cbn [model_dump coerce]. now rewrite Hws.
  - destruct t as [| | | | | | | | | |mro fa fs]; try contradiction.
    apply conforms_model in Hc. destruct Hc as (fields & supplied & -> & Hh).
    assert (Hr' : reparsable (TModel mro' fa' fs') (TModel mro fa fs))
      by exact Hr.
    apply reparsable_model in Hr'.
    destruct (reparse_fields IH Hh Hr') as [Hok Ha].
    rewrite model_dump_model. cbn [coerce].
    rewrite finish_validate_fields, Hok.
    eexists. split; [reflexivity|]. now constructor.
Qed.

End Reparse.

(** ** What the engine builds is a valid instance *)

Lemma plain_dict (m : list (string * value)) :
  plain (VDict m) = plain_bindings m.
Proof.
  cbn. induction m as [|[k x] r IH]; [reflexivity|]. cbn. now rewrite IH.
Qed.

Lemma plain_obj (m : list (string * value)) :
  plain (VObj m) = plain_bindings m.
Proof.
  cbn. induction m as [|[k x] r IH]; [reflexivity|]. cbn. now rewrite IH.
Qed.

Lemma plain_lookup (n : string) (m : list (string * value)) (x : value) :
  plain_bindings m = true -> lookup n m = Some x -> plain x = true.
Proof.
  induction m as [|[k y] r IH]; [discriminate|].
  cbn. rewrite andb_true_iff. intros [H1 H2].
  destruct (String.eqb n k); [congruence | now apply IH].
Qed.

Lemma no_validators_model (mro : list string) (fa : bool)
  (fs : list (field_decl ftype)) :
  no_validators (TModel mro fa fs) = forallb field_no_validators fs.
Proof.
  cbn. induction fs as [|fd r IH]; [reflexivity|].
  cbn. unfold field_no_validators at 1. now rewrite IH.
Qed.

Section Soundness.
Context {X : Externals}.

Lemma of_option_ok A (k : err_kind) (f : A -> value) (o : option A)
  (v : value) :
  of_option k f o = Ok v -> exists a, v = f a.
Proof. destruct o; cbn; [|discriminate]. intros H. inversion H. eauto. Qed.

Lemma coerce_items_conform (t : ftype) (l : list value) :
  (forall raw v, plain raw = true -> coerce t raw = Ok v -> conforms t v) ->
  forallb plain l = true ->
  forall i ys, coerce_items (coerce t) i l = Ok ys -> Forall (conforms t) ys.
Proof.
  intros IH. induction l as [|x r IHl]; intros Hp i ys; cbn.
  - intros H. inversion H. constructor.
  - cbn in Hp. apply andb_true_iff in Hp as [Hx Hr].
    destruct (coerce t x) as [y|e] eqn:Ey;
      destruct (coerce_items (coerce t) (S i) r) as [zs|es] eqn:Ez;
      try discriminate.
    intros H. inversion H; subst. constructor; [now apply (IH x)|].
    now apply (IHl Hr (S i)).
Qed.

Lemma fields_conform (src : list (string * value))
  (fs : list (field_decl ftype)) :
  Forall (fun fd => forall raw v, plain raw = true ->
            coerce (f_type fd) raw = Ok v -> conforms (f_type fd) v) fs ->
  plain_bindings src = true ->
  forallb (fun fd => match f_validator fd with
                     | None => true | Some _ => false end) fs = true ->
  forallb (field_ok coerce src) fs = true ->
  Forall2 holds fs (flat_map (field_binding coerce src) fs).
Proof.
  intros IH Hp. induction fs as [|fd r IHr]; cbn; [constructor|].
  rewrite !andb_true_iff. intros [Hv Hvr] [Hok Hokr].
  inversion IH as [|? ? IHfd IHrest]; subst.
  unfold field_binding at 1. unfold field_ok in Hok.
  destruct (field_value coerce src fd) as [[v b]|e] eqn:E; [|discriminate].
  cbn. constructor; [|now apply IHr].
  split; [reflexivity|]. cbn.
  unfold field_value in E.
  destruct (lookup (f_name fd) src) as [raw|] eqn:El.
  - destruct (f_validator fd); [discriminate|].
    destruct (coerce (f_type fd) raw) as [w|] eqn:Ec; [|discriminate].
    cbn in E. inversion E; subst. left.
    apply (IHfd raw); [|exact Ec]. now apply (plain_lookup _ _ Hp El).
  - destruct (f_default fd) as [|d]; [discriminate|].
    inversion E; subst. now right.
Qed.

(** Every value the engine builds from plain input at a type without
    validators is a valid value of the type. *)
Lemma coerce_conforms (t : ftype) :
  no_validators t = true ->
  forall raw v, plain raw = true -> coerce t raw = Ok v -> conforms t v.
Proof.
  induction t as [| | | | | | | | t IH | t IH | mro fa fs IH]
    using ftype_ind; intros Hnv raw v Hp Hc.
  - destruct raw; cbn in Hc; try discriminate;
      try (apply of_option_ok in Hc as [a ->]); try (inversion Hc; subst);
      cbn; eauto.
  - destruct raw; cbn in Hc; try discriminate;
      try (apply of_option_ok in Hc as [a ->]); try (inversion Hc; subst);
      cbn; eauto.
  - destruct raw; cbn in Hc; try discriminate; inversion Hc; subst;
      cbn; eauto.
  - destruct raw; cbn in Hc; try discriminate.
    + inversion Hc; subst; cbn; eauto.
    + destruct (Z.eqb z 0); [inversion Hc; cbn; eauto|].
      destruct (Z.eqb z 1); [inversion Hc; cbn; eauto | discriminate].
    + destruct (PrimFloat.eqb f 0); [inversion Hc; cbn; eauto|].
      destruct (PrimFloat.eqb f 1); [inversion Hc; cbn; eauto | discriminate].
    + unfold bool_of_string in Hc.
      destruct (mem_string _ true_strings); [inversion Hc; cbn; eauto|].
      destruct (mem_string _ false_strings);
        [inversion Hc; cbn; eauto | discriminate].
    + unfold bool_of_string in Hc.
      destruct (mem_string _ true_strings); [inversion Hc; cbn; eauto|].
      destruct (mem_string _ false_strings);
        [inversion Hc; cbn; eauto | discriminate].
  - destruct raw; cbn in Hc; try discriminate;
      try (apply of_option_ok in Hc as [a ->]); try (inversion Hc; subst);
      cbn; eauto.
  - destruct raw; cbn in Hc; try discriminate;
      (destruct (validate_email _); [|discriminate]);
      inversion Hc; subst; cbn; eauto.
  - destruct raw; cbn in Hc; try discriminate;
      try (apply of_option_ok in Hc as [a ->]); try (inversion Hc; subst);
      cbn; eauto.
  - destruct raw; cbn in Hc; try discriminate; inversion Hc; subst;
      cbn; eauto.
  - cbn in Hnv. destruct raw;
      try (right; now apply (IH Hnv _ v Hp)).
    cbn in Hc. inversion Hc. now left.
  - cbn in Hnv. destruct raw; cbn in Hc; try discriminate.
    destruct (coerce_items (coerce t) 0 l) as [ys|] eqn:Ey; [|discriminate].
    inversion Hc; subst. cbn. exists ys. split; [reflexivity|].
    cbn in Hp. exact (@coerce_items_conform t l (IH Hnv) Hp 0 ys Ey).
  - rewrite no_validators_model in Hnv.
    assert (Hv : forallb (fun fd => match f_validator fd with
                                    | None => true | Some _ => false end) fs
                 = true).
    { apply forallb_forall. intros fd Hin.
      rewrite forallb_forall in Hnv. specialize (Hnv fd Hin).
      unfold field_no_validators in Hnv.
      now apply andb_true_iff in Hnv as [Hnv _]. }
    assert (IH' : Forall (fun fd => forall raw v, plain raw = true ->
                coerce (f_type fd) raw = Ok v -> conforms (f_type fd) v) fs).
    { rewrite Forall_forall in *. intros fd Hin. apply (IH fd Hin).
      rewrite forallb_forall in Hnv. specialize (Hnv fd Hin).
      unfold field_no_validators in Hnv.
      now apply andb_true_iff in Hnv as [_ Hnv]. }
    assert (Hbuild : forall src, plain_bindings src = true ->
              finish mro (validate_fields coerce src fs) = Ok v ->
              conforms (TModel mro fa fs) v).
    { intros src Hps. rewrite finish_validate_fields.
      destruct (forallb (field_ok coerce src) fs) eqn:Eok; [|discriminate].
      intros Hf. inversion Hf; subst. apply conforms_model.
      eexists _, _. split; [reflexivity|].
      now apply fields_conform. }
    destruct raw; try discriminate.
    + rewrite plain_dict in Hp. now apply (Hbuild m).
    + rewrite plain_obj in Hp. cbn in Hc.
      destruct fa; [now apply (Hbuild attrs) | discriminate].
Qed.

End Soundness.

(** ** Round trip: output instance, wire encoding, input shape *)

Section WireReparse.
Context {X : Externals} {W : Wire}.

Lemma to_wire_model (mro : list string) (m : list (string * value))
  (s : list string) :
  to_wire (VModel mro m s) = VDict (wire_bindings m).
Proof.
  cbn. f_equal. induction m as [|[k x] r IH]; [reflexivity|].
  cbn. now rewrite IH.
Qed.

Lemma lookup_wire_bindings (n : string) (m : list (string * value)) :
  lookup n (wire_bindings m) = option_map to_wire (lookup n m).
Proof.
  induction m as [|[k x] r IH]; [reflexivity|].
  cbn. destruct (String.eqb n k); [reflexivity | exact IH].
Qed.

Lemma wire_safe_model (mro : list string) (m : list (string * value))
  (s : list string) :
  wire_safe (VModel mro m s) <-> Forall (fun kv => wire_safe (snd kv)) m.
Proof.
  cbn. induction m as [|[k x] r IH]; split; intros H.
  - constructor.
  - exact I.
  - destruct H as [H1 H2]. constructor; [exact H1 | now apply IH].
  - inversion H; subst. split; [assumption | now apply IH].
Qed.

Lemma wire_safe_list (l : list value) :
  wire_safe (VList l) <-> Forall wire_safe l.
Proof.
  cbn. induction l as [|x r IH]; split; intros H.
  - constructor.
  - exact I.
  - destruct H as [H1 H2]. constructor; [exact H1 | now apply IH].
  - inversion H; subst. split; [assumption | now apply IH].
Qed.

Lemma wire_safe_lookup (n : string) (m : list (string * value)) (x : value) :
  Forall (fun kv => wire_safe (snd kv)) m -> lookup n m = Some x ->
  wire_safe x.
Proof.
  induction 1 as [|[k y] r Hy Hr IH]; [discriminate|].
  cbn. destruct (String.eqb n k); [|exact IH].
  intros E. inversion E; subst. exact Hy.
Qed.

(** Only [None] is [null] on the wire, for an instance that survives it. *)
Lemma to_wire_none (v : value) : wire_safe v -> to_wire v = VNone -> v = VNone.
Proof.
  destruct v; cbn; try congruence. intros ->. discriminate.
Qed.

Lemma finite_equal (f : float) :
  PrimFloat.is_finite f = true -> PrimFloat.eqb f f = true.
Proof.
  unfold PrimFloat.is_finite, PrimFloat.is_nan.
  destruct (PrimFloat.eqb f f); [reflexivity | discriminate].
Qed.

Lemma role_of_string_value (r : UserRole) :
  role_of_string (UserRole_value r) = Some r.
Proof. destruct r; reflexivity. Qed.

Lemma wire_reparsable_model (mro' mro : list string) (fa' fa : bool)
  (fs' fs : list (field_decl ftype)) :
  wire_reparsable (TModel mro' fa' fs') (TModel mro fa fs)
  <-> Forall (field_wire_reparsable fs) fs'.
Proof.
  cbn. induction fs' as [|fd' r IH]; split; intros H.
  - constructor.
  - exact I.
  - destruct H as [H1 H2]. constructor; [exact H1 | now apply IH].
  - inversion H; subst. split; [assumption | now apply IH].
Qed.

Lemma wire_reparse_items (t' t : ftype) (l : list value) :
  (forall v, conforms t v -> wire_safe v ->
     exists w, coerce t' (to_wire v) = Ok w /\ py_equal v w) ->
  Forall (conforms t) l -> Forall wire_safe l ->
  forall i, exists ws,
    coerce_items (coerce t') i (map to_wire l) = Ok ws
    /\ Forall2 py_equal l ws.
Proof.
  intros Hc Hl. induction Hl as [|x l Hx Hl IH]; intros Hs i.
  - exists []. split; [reflexivity | constructor].
  - inversion Hs as [|? ? Hsx Hsl]; subst.
    destruct (Hc x Hx Hsx) as (w & Hw & Ha).
    destruct (IH Hsl (S i)) as (ws & Hws & Has).
    exists (w :: ws). cbn. rewrite Hw, Hws.
    split; [reflexivity | now constructor].
Qed.

(** One field of the input class, read from the wire mapping of a valid
    output instance. *)
Lemma wire_reparse_field (fs : list (field_decl ftype))
  (fields : list (string * value)) (fd' : field_decl ftype) :
  (forall t v, wire_reparsable (f_type fd') t -> conforms t v ->
     wire_safe v ->
     exists w, coerce (f_type fd') (to_wire v) = Ok w /\ py_equal v w) ->
  Forall2 holds fs fields ->
  Forall (fun kv => wire_safe (snd kv)) fields ->
  field_wire_reparsable fs fd' ->
  exists w b,
    field_value coerce (wire_bindings fields) fd' = Ok (w, b)
    /\ forall x, lookup (f_name fd') fields = Some x -> py_equal x w.
Proof.
  intros IH Hh Hs [Hv Hf].
  pose proof (lookup_holds (f_name fd') Hh) as Hl.
  destruct (find_field (f_name fd') fs) as [fd|].
  - destruct Hl as (x & Hx & Hc). destruct Hf as [Hr Hd].
    pose proof (wire_safe_lookup _ Hs Hx) as Hsx.
    assert (Hw : exists w,
               coerce (f_type fd') (to_wire x) = Ok w /\ py_equal x w).
    { destruct Hc as [Hc|Hc]; [now apply (IH (f_type fd))|].
      rewrite Hc in Hd. destruct Hd as [Hd|Hd]; [|exact Hd].
      now apply (IH (f_type fd)). }
    destruct Hw as (w & Hw & Ha). exists w, true. split.
    + erewrite field_value_present; [|
        rewrite lookup_wire_bindings, Hx; reflexivity | exact Hv].
      now rewrite Hw.
    + intros x' Hx'. rewrite Hx in Hx'. now inversion Hx'; subst.
  - destruct (f_default fd') as [|d] eqn:Ed; [now contradict Hf|].
    exists d, false. split.
    + apply field_value_absent; [|exact Ed].
      now rewrite lookup_wire_bindings, Hl.
    + intros x Hx. congruence.
Qed.

(** All fields of the input class. *)
Lemma wire_reparse_fields (fs fs' : list (field_decl ftype))
  (fields : list (string * value)) :
  Forall (fun fd' => forall t v, wire_reparsable (f_type fd') t ->
            conforms t v -> wire_safe v ->
            exists w, coerce (f_type fd') (to_wire v) = Ok w
                      /\ py_equal v w)
         fs' ->
  Forall2 holds fs fields ->
  Forall (fun kv => wire_safe (snd kv)) fields ->
  Forall (field_wire_reparsable fs) fs' ->
  forallb (field_ok coerce (wire_bindings fields)) fs' = true
  /\ forall n x w,
       lookup n fields = Some x ->
       lookup n (flat_map (field_binding coerce (wire_bindings fields)) fs')
       = Some w ->
       py_equal x w.
Proof.
  intros IH Hh Hs Hr.
  assert (Hall : Forall (fun fd' => exists w b,
             field_value coerce (wire_bindings fields) fd' = Ok (w, b)
             /\ forall x, lookup (f_name fd') fields = Some x
                          -> py_equal x w)
            fs').
  { rewrite Forall_forall in *. intros fd' Hin.
    apply wire_reparse_field with (fs := fs);
      [exact (IH fd' Hin) | exact Hh | | exact (Hr fd' Hin)].
    apply Forall_forall. exact Hs. }
  assert (Hok : forallb (field_ok coerce (wire_bindings fields)) fs' = true).
  { apply forallb_forall. intros fd' Hin.
    rewrite Forall_forall in Hall.
    destruct (Hall fd' Hin) as (w & b & Hw & _).
    unfold field_ok. now rewrite Hw. }
  split; [exact Hok|].
  intros n x w Hx. rewrite (lookup_binding _ _ _ _ Hok).
  destruct (find_field n fs') as [fd'|] eqn:Ef; [|discriminate].
  apply find_field_name in Ef as [<- Hin].
  rewrite Forall_forall in Hall.
  destruct (Hall fd' Hin) as (w' & b & Hw & Ha).
  rewrite Hw. intros E. inversion E; subst. now apply Ha.
Qed.

(** Re-parsing the wire form of any valid value of [t] that survives the
    wire, at a type that re-parses [t], succeeds, and the result is equal
    to the value. *)
Lemma wire_reparse (t' : ftype) :
  forall t v, wire_reparsable t' t -> conforms t v -> wire_safe v ->
    exists w, coerce t' (to_wire v) = Ok w /\ py_equal v w.
Proof.
  induction t' as [| | | | | | | | t' IH | t' IH | mro' fa' fs' IH]
    using ftype_ind; intros t v Hr Hc Hs; cbn in Hr; try contradiction.
  - subst t. destruct Hc as [z ->]. eexists. split; [reflexivity|constructor].
  - subst t. destruct Hc as [f ->]. cbn in Hs. exists (VFloat f).
    cbn. rewrite Hs. split; [reflexivity|].
    constructor. now apply finite_equal.
  - subst t. destruct Hc as [s ->]. eexists. split; [reflexivity|constructor].
  - subst t. destruct Hc as [b ->]. eexists. split; [reflexivity|constructor].
  - subst t. destruct Hc as [d ->]. cbn in Hs. exists (VDatetime d).
    cbn. rewrite Hs. split; [reflexivity | constructor].
  - subst t. destruct Hc as [r ->]. exists (VRole r).
    cbn. rewrite role_of_string_value. split; [reflexivity | constructor].
  - destruct t; try contradiction. cbn in Hc.
    destruct Hc as [->|Hc]; [exists VNone; split; [reflexivity|constructor]|].
    destruct (IH _ _ Hr Hc Hs) as (w & Hw & Ha).
    destruct (coerce_optional_of _ _ Hw) as [[Hn Ho]|Ho].
    + apply to_wire_none in Hn; [|exact Hs]. subst v.
      exists VNone. split; [exact Ho | constructor].
    + exists w. now split.
  - destruct t; try contradiction. cbn in Hc.
    destruct Hc as (l & -> & Hl).
    apply wire_safe_list in Hs.
    destruct (@wire_reparse_items t' t l (fun v => IH t v Hr) Hl Hs 0)
      as (ws & Hws & Ha).
    exists (VList ws). split; [|now constructor].
    cbn [to_wire coerce]. now rewrite Hws.
  - destruct t as [| | | | | | | | | |mro fa fs]; try contradiction.
    apply conforms_model in Hc. destruct Hc as (fields & supplied & -> & Hh).
    assert (Hr' : wire_reparsable (TModel mro' fa' fs') (TModel mro fa fs))
      by exact Hr.
    apply wire_reparsable_model in Hr'.
    apply wire_safe_model in Hs.
    destruct (wire_reparse_fields IH Hh Hs Hr') as [Hok Ha].
    rewrite to_wire_model. cbn [coerce].
    rewrite finish_validate_fields, Hok.
    eexists. split; [reflexivity|]. now constructor.
Qed.

Lemma pairs_wire_reparsable (out inp : model) :
  In (out, inp) roundtrip_pairs ->
  wire_reparsable (TModelOf inp) (TModelOf out).
Proof.
  intros Hin.
  repeat (destruct Hin as [E|Hin];
          [inversion E; subst out inp; solve_wire_reparsable|]).
  destruct Hin.
Qed.

End WireReparse.

Lemma lookup_in_keys (n : string) (m : list (string * value)) :
  In n (keys m) -> exists v, lookup n m = Some v.
Proof.
  induction m as [|[k x] r IH]; [contradiction|].
  cbn. destruct (String.eqb_spec n k) as [E|E]; [eauto|].
  intros [H|H]; [congruence | now apply IH].
Qed.

Lemma find_field_in_names (n : string) (fs : list (field_decl ftype)) :
  In n (field_names fs) -> exists fd, find_field n fs = Some fd.
Proof.
  induction fs as [|fd r IH]; [contradiction|].
  cbn. destruct (String.eqb_spec n (f_name fd)) as [E|E]; [eauto|].
  intros [H|H]; [congruence | now apply IH].
Qed.

Section RoundTrip.
Context {X : Externals} {W : Wire}.

(** C5, as amended.  For every output shape whose input shape requires
    only fields that the output shape declares (the nine pairs of
    [roundtrip_pairs]) and every valid instance of it that survives the
    wire (its floats are finite and its timestamps are read back from
    their ISO-8601 strings), re-parsing the instance's wire encoding
    (nested instances as mappings, timestamps as ISO-8601 strings, enum
    members as their string values) with the input shape succeeds, gives
    an instance with exactly the input shape's fields, and every field the
    two shapes share holds values that are equal as Python's [==] has
    them: the same value, floats that compare equal, an integer default
    against the float it converts to, or nested items equal on their own
    shared fields. *)
Theorem C5_roundtrip_on_shared_fields (out inp : model) (inst : value) :
  In (out, inp) roundtrip_pairs ->
  conforms (TModelOf out) inst ->
  wire_safe inst ->
  exists fields supplied,
    model_validate inp (to_wire inst)
    = Ok (VModel (m_mro inp) fields supplied)
    /\ keys fields = field_names (m_fields inp)
    /\ forall n,
         In n (field_names (m_fields out)) ->
         In n (field_names (m_fields inp)) ->
         exists x w,
           lookup n (fields_of inst) = Some x
           /\ lookup n fields = Some w
           /\ py_equal x w.
Proof.
  intros Hin Hc Hs.
  apply conforms_model in Hc. destruct Hc as (ofields & osup & -> & Hh).
  pose proof (@pairs_wire_reparsable X W out inp Hin) as Hr.
  apply wire_reparsable_model in Hr.
  apply wire_safe_model in Hs.
  assert (IH : Forall (fun fd' => forall t v,
              wire_reparsable (f_type fd') t -> conforms t v ->
              wire_safe v ->
              exists w, coerce (f_type fd') (to_wire v) = Ok w
                        /\ py_equal v w) (m_fields inp)).
  { apply Forall_forall. intros fd' _. apply wire_reparse. }
  destruct (wire_reparse_fields IH Hh Hs Hr) as [Hok Ha].
  unfold model_validate, TModelOf. rewrite to_wire_model. cbn [coerce].
  rewrite finish_validate_fields, Hok.
  eexists _, _. split; [reflexivity|].
  pose proof (all_ok_keys _ _ _ Hok) as Hk. split; [exact Hk|].
  intros n Ho Hi. cbn [fields_of].
  destruct (find_field_in_names _ _ Ho) as [fd Hfd].
  pose proof (lookup_holds n Hh) as Hl. rewrite Hfd in Hl.
  destruct Hl as (x & Hx & _).
  rewrite <- Hk in Hi. destruct (lookup_in_keys _ _ Hi) as [w Hw].
  exists x, w. repeat split; [exact Hx | exact Hw | now apply (Ha n)].
Qed.

(** The instances the engine builds from plain records are valid, so the
    round trip applies to them. *)
Lemma constructed_conforms (m : model) (raw inst : value) :
  no_validators (TModelOf m) = true ->
  plain raw = true ->
  model_validate m raw = Ok inst ->
  conforms (TModelOf m) inst.
Proof. intros Hnv Hp Hc. exact (coerce_conforms _ Hnv raw Hp Hc). Qed.

End RoundTrip.

Lemma harbour_branch_conforms :
  conforms (TModelOf Schemas.BranchResponse) harbour_branch.
Proof.
  apply (@constructed_conforms sample_externals Schemas.BranchResponse
           (VObj (stored_branch "moved in 2019"))); reflexivity.
Qed.

Lemma expense_instance_conforms (cost : float) :
  conforms (TModelOf Schemas.DailyExpenseResponse) (expense_instance cost).
Proof.
  apply (@constructed_conforms wire_externals Schemas.DailyExpenseResponse
           (VObj (stored_expense cost))); reflexivity.
Qed.

Lemma C5_roundtrip_witness :
  exists fields supplied,
    model_validate (X := wire_externals) Schemas.DailyExpenseCreate
      (to_wire (W := sample_wire) (expense_instance 2.5))
    = Ok (VModel ["DailyExpenseCreate"; "DailyExpenseBase"] fields supplied)
    /\ keys fields = field_names (m_fields Schemas.DailyExpenseCreate)
    /\ forall n,
         In n (field_names (m_fields Schemas.DailyExpenseResponse)) ->
         In n (field_names (m_fields Schemas.DailyExpenseCreate)) ->
         exists x w,
           lookup n (fields_of (expense_instance 2.5)) = Some x
           /\ lookup n fields = Some w
           /\ py_equal x w.
Proof.
  apply (@C5_roundtrip_on_shared_fields wire_externals sample_wire
           Schemas.DailyExpenseResponse Schemas.DailyExpenseCreate
           (expense_instance 2.5)).
  - right; right; now left.
  - exact (expense_instance_conforms 2.5).
  - vm_compute. tauto.
Defined.

(** The conditions on the instance are needed.  The wire form of the
    sample timestamp is its ISO-8601 string, and the sample parser reads
    it back. *)
Example sample_time_on_the_wire :
  to_wire (W := sample_wire) (VDatetime sample_time)
  = VStr "2024-05-17T12:30:00"
  /\ parse_datetime (Externals := wire_externals) "2024-05-17T12:30:00"
     = Some sample_time.
Proof. split; reflexivity. Qed.

(** A unit cost that is not a number is [null] on the wire, and
    [DailyExpenseCreate] rejects it. *)
Example nan_does_not_survive_the_wire :
  conforms (TModelOf Schemas.DailyExpenseResponse) (expense_instance nan)
  /\ model_validate (X := wire_externals) Schemas.DailyExpenseCreate
       (to_wire (W := sample_wire) (expense_instance nan))
     = Err [mk_error [LField "unit_cost"] (E_type N_float)].
Proof. split; [exact (expense_instance_conforms nan) | reflexivity]. Qed.

(** With a parser that does not read timestamps out of strings, the
    expense date is rejected. *)
Example unparsed_timestamp_is_rejected :
  model_validate (X := sample_externals) Schemas.DailyExpenseCreate
    (to_wire (W := sample_wire) (expense_instance 2.5))
  = Err [mk_error [LField "expense_date"] (E_parsing N_datetime)].
Proof. reflexivity. Qed.

(** C5, as stated, fails: [sam_admin] is a valid [AdminResponse] instance
    (it is what the engine builds from the stored admin), and re-parsing
    its mapping with [AdminCreate], the input shape of the Admin entity,
    is rejected because the required [password] is no field of
    [AdminResponse]; so is re-parsing its wire encoding, in which the
    timestamps are strings and the role is its string value. *)
Lemma C5_admin_roundtrip_fails :
  model_validate (X := sample_externals) Schemas.AdminResponse
    (VObj (stored_admin "$2b$12$abc" 0)) = Ok sam_admin
  /\ conforms (TModelOf Schemas.AdminResponse) sam_admin
  /\ model_validate (X := sample_externals) Schemas.AdminCreate
       (model_dump sam_admin)
     = Err [mk_error [LField "password"] E_missing]
  /\ wire_safe (X := wire_externals) (W := sample_wire) sam_admin
  /\ model_validate (X := wire_externals) Schemas.AdminCreate
       (to_wire (W := sample_wire) sam_admin)
     = Err [mk_error [LField "password"] E_missing].
Proof.
  split; [reflexivity|]. split; [|split; [reflexivity|]].
  - apply (@constructed_conforms sample_externals Schemas.AdminResponse
             (VObj (stored_admin "$2b$12$abc" 0))); reflexivity.
  - split; [vm_compute; tauto | reflexivity].
Qed.

(** * Further properties of the code *)

(** ** The image URL check looks at the letters of the suffix only *)

Lemma lower_char_idempotent (c : ascii) :
  PyStr.lower_char (PyStr.lower_char c) = PyStr.lower_char c.
Proof. destruct c as [[] [] [] [] [] [] [] []]; reflexivity. Qed.

Lemma lower_idempotent (s : string) : PyStr.lower (PyStr.lower s) = PyStr.lower s.
Proof.
  induction s as [|c r IH]; [reflexivity|].
  cbn. now rewrite lower_char_idempotent, IH.
Qed.

Lemma lower_append (p s : string) :
  PyStr.lower (p ++ s)%string = (PyStr.lower p ++ PyStr.lower s)%string.
Proof. induction p as [|c r IH]; [reflexivity|]. cbn. now rewrite IH. Qed.

Lemma lower_length (s : string) :
  String.length (PyStr.lower s) = String.length s.
Proof. induction s as [|c r IH]; [reflexivity|]. cbn. now rewrite IH. Qed.

(** A suffix no longer than [b] is a suffix of [a ++ b] only if it is one
    of [b]. *)
Lemma suffix_of_append (a b q e : string) :
  String.length e <= String.length b ->
  (a ++ b)%string = (q ++ e)%string ->
  exists q', b = (q' ++ e)%string.
Proof.
  revert q. induction a as [|c a IH]; intros q Hle H.
  - now exists q.
  - destruct q as [|d q].
    + cbn in H. subst e. cbn in Hle. rewrite length_append in Hle. lia.
    + cbn in H. inversion H; subst. now apply (IH q).
Qed.

Lemma endswith_append (a b e : string) :
  String.length e <= String.length b ->
  PyStr.endswith (a ++ b)%string e = PyStr.endswith b e.
Proof.
  intros Hle.
  destruct (PyStr.endswith b e) eqn:Eb.
  - apply endswith_spec in Eb as [q ->]. apply endswith_spec.
    exists (a ++ q)%string. clear. induction a as [|c a IH]; [reflexivity|].
    cbn. now rewrite IH.
  - destruct (PyStr.endswith (a ++ b)%string e) eqn:Eab; [|reflexivity].
    apply endswith_spec in Eab as [q Hq].
    destruct (suffix_of_append a b q e Hle Hq) as [q' Hq'].
    assert (PyStr.endswith b e = true) by (apply endswith_spec; eauto).
    congruence.
Qed.

(** X1.  The check is blind to letter case: two strings with the same
    lower-casing are both accepted or both rejected, and a string is
    accepted exactly when its lower-casing is. *)
Theorem X1_image_url_case_blind (s1 s2 : string) :
  PyStr.lower s1 = PyStr.lower s2 ->
  is_ok (validate_image_url s1) = is_ok (validate_image_url s2)
  /\ is_ok (validate_image_url (PyStr.lower s1))
     = is_ok (validate_image_url s1).
Proof.
  intros H. unfold validate_image_url, has_allowed_extension.
  rewrite lower_idempotent, H.
  destruct (existsb (fun ext => PyStr.endswith (PyStr.lower s2) ext)
                    allowed_extensions); split; reflexivity.
Qed.

Lemma X1_image_url_case_blind_witness :
  is_ok (validate_image_url "Menu/TACO.Png")
  = is_ok (validate_image_url "menu/taco.PNG")
  /\ is_ok (validate_image_url (PyStr.lower "Menu/TACO.Png"))
     = is_ok (validate_image_url "Menu/TACO.Png").
Proof.
  exact (@X1_image_url_case_blind "Menu/TACO.Png" "menu/taco.PNG" eq_refl).
Defined.

(** X2.  Only the end of the string is looked at: whatever is put in
    front of a string of five characters or more (a scheme, a host, a
    path) changes neither the verdict nor, on acceptance, the returned
    value's being the whole input. *)
Theorem X2_image_url_prefix_irrelevant (p s : string) :
  5 <= String.length s ->
  is_ok (validate_image_url (p ++ s)%string) = is_ok (validate_image_url s)
  /\ (is_ok (validate_image_url s) = true ->
      validate_image_url (p ++ s)%string = Ok (p ++ s)%string).
Proof.
  intros Hlen.
  assert (He : has_allowed_extension (p ++ s)%string
               = has_allowed_extension s).
  { unfold has_allowed_extension, allowed_extensions. cbn [existsb].
    rewrite lower_append.
    rewrite !endswith_append by (rewrite lower_length; cbn; lia).
    reflexivity. }
  unfold validate_image_url. rewrite He.
  destruct (has_allowed_extension s); cbn; split; auto; discriminate.
Qed.

Lemma X2_image_url_prefix_witness :
  is_ok (validate_image_url ("javascript:alert(1)//" ++ "x.gif")%string)
  = is_ok (validate_image_url "x.gif")
  /\ (is_ok (validate_image_url "x.gif") = true ->
      validate_image_url ("javascript:alert(1)//" ++ "x.gif")%string
      = Ok ("javascript:alert(1)//" ++ "x.gif")%string).
Proof.
  apply (@X2_image_url_prefix_irrelevant "javascript:alert(1)//" "x.gif").
  cbn. lia.
Defined.

(** X3.  Every string shorter than four characters, the empty string
    included, is rejected: no allowed extension fits in it. *)
Theorem X3_image_url_short_rejected (s : string) :
  String.length s < 4 ->
  validate_image_url s = Err "Invalid image format".
Proof.
  intros Hlen.
  assert (Hf : forall e, 4 <= String.length e ->
                 PyStr.endswith (PyStr.lower s) e = false).
  { intros e He. unfold PyStr.endswith. rewrite lower_length.
    destruct (Nat.leb_spec (String.length e) (String.length s));
      [lia | reflexivity]. }
  unfold validate_image_url, has_allowed_extension, allowed_extensions.
  cbn [existsb]. rewrite !Hf by (cbn; lia). reflexivity.
Qed.

Lemma X3_image_url_short_witness :
  validate_image_url "" = Err "Invalid image format"
  /\ validate_image_url "jpg" = Err "Invalid image format".
Proof.
  split; [apply (@X3_image_url_short_rejected "") |
          apply (@X3_image_url_short_rejected "jpg")]; cbn; lia.
Defined.

(** ** The enum of roles *)

(** X4.  A string is read as a member of [UserRole] exactly when it is
    the member's value, so writing a member's value and reading it back
    gives the member, and no two members share a value; the engine turns
    the value of a member into that member, and a role field dumps it
    back as the same member. *)
Theorem X4_user_role_round_trip (r : UserRole) (s : string) :
  (role_of_string s = Some r <-> s = UserRole_value r)
  /\ coerce_role (VStr (UserRole_value r)) = Ok (VRole r)
  /\ coerce_role (model_dump (VRole r)) = Ok (VRole r).
Proof.
  split; [|split; destruct r; reflexivity].
  unfold role_of_string. split.
  - destruct (String.eqb_spec s "admin") as [->|_].
    + intros H. now inversion H.
    + destruct (String.eqb_spec s "worker") as [->|_]; [|discriminate].
      intros H. now inversion H.
  - intros ->. now destruct r.
Qed.

(** ** What every shape does with missing, extra and defaulted fields *)

Section Payloads.
Context {X : Externals}.

Lemma validate_fields_empty (fs : list (field_decl ftype)) :
  validate_fields coerce [] fs
  = mk_partial (default_bindings fs) []
               (map missing_error (required_names fs)).
Proof.
  induction fs as [|fd r IH]; [reflexivity|].
  cbn [validate_fields]. rewrite IH.
  unfold validate_field, field_value, required_names, default_bindings,
    is_required. cbn.
  destruct (f_default fd); reflexivity.
Qed.

(** X5.  The empty payload: a shape with no required field is built
    from it, every field holding its declared default and none marked as
    supplied; any other shape rejects it with exactly one "missing" error
    per required field, in declaration order. *)
Theorem X5_empty_payload (m : model) :
  construct m []
  = match required_names (m_fields m) with
    | [] => Ok (VModel (m_mro m) (default_bindings (m_fields m)) [])
    | _ :: _ => Err (map missing_error (required_names (m_fields m)))
    end.
Proof.
  rewrite construct_unfold, validate_fields_empty. unfold finish. cbn.
  now destruct (required_names (m_fields m)).
Qed.

(** X6.  A required field that the payload does not supply is always
    reported as missing, whatever else the payload holds. *)
Theorem X6_missing_required_reported
  (m : model) (payload : list (string * value)) (fd : field_decl ftype) :
  In fd (m_fields m) ->
  f_default fd = Required ->
  lookup (f_name fd) payload = None ->
  exists es,
    construct m payload = Err es /\ In (missing_error (f_name fd)) es.
Proof.
  intros Hin Hreq Hl.
  assert (Hv : field_value coerce payload fd
               = Err [missing_error (f_name fd)]).
  { unfold field_value. now rewrite Hl, Hreq. }
  rewrite construct_spec.
  assert (Hok : forallb (field_ok coerce payload) (m_fields m) = false).
  { destruct (forallb (field_ok coerce payload) (m_fields m)) eqn:E;
      [|reflexivity].
    rewrite forallb_forall in E. specialize (E fd Hin).
    unfold field_ok in E. now rewrite Hv in E. }
  rewrite Hok. eexists. split; [reflexivity|].
  apply in_flat_map. exists fd. split; [exact Hin|].
  unfold field_errors. rewrite Hv. now left.
Qed.

Lemma lookup_other_key (n k : string) (v : value)
  (src : list (string * value)) :
  n <> k -> lookup n ((k, v) :: src) = lookup n src.
Proof.
  intros Hne. cbn. destruct (String.eqb_spec n k); [contradiction|].
  reflexivity.
Qed.

Lemma alike_same (t : ftype) (a b : option value) :
  a = b -> alike (same_declared t) a b.
Proof.
  intros ->. destruct b; cbn; [apply same_declared_refl | exact I].
Qed.

(** X7.  A key that the shape does not declare is ignored: adding it to
    a payload changes neither the instance nor the error report.  A
    client cannot set through [AdminCreate] what it does not declare, such
    as [is_superuser]. *)
Theorem X7_undeclared_key_ignored
  (m : model) (payload : list (string * value)) (k : string) (v : value) :
  ~ In k (field_names (m_fields m)) ->
  construct m ((k, v) :: payload) = construct m payload.
Proof.
  intros Hk. unfold construct, model_validate.
  apply coerce_same_declared. apply same_declared_model. right.
  exists ((k, v) :: payload), payload. split; [now right|].
  unfold records_alike. apply Forall_forall. intros fd Hin.
  apply alike_same. apply lookup_other_key. intros E. apply Hk.
  rewrite <- E. unfold field_names. now apply in_map.
Qed.

Lemma supplied_is_present (src : list (string * value))
  (fs : list (field_decl ftype)) :
  forallb (field_ok coerce src) fs = true ->
  flat_map (field_supplied coerce src) fs = present_names src fs.
Proof.
  unfold present_names. induction fs as [|fd r IH]; [reflexivity|].
  cbn. rewrite andb_true_iff. intros [Hok Hr]. rewrite (IH Hr).
  unfold field_supplied, field_ok, field_value, is_present in *.
  destruct (lookup (f_name fd) src) as [raw|].
  - destruct (coerce (f_type fd) raw); [|discriminate].
    destruct (run_validator (f_validator fd) a); [reflexivity|discriminate].
  - destruct (f_default fd); [discriminate | reflexivity].
Qed.

(** X8.  The set of supplied fields of an instance is exactly the
    declared fields that the payload supplies, in declaration order:
    neither a defaulted field nor an undeclared key is ever in it. *)
Theorem X8_fields_set_is_what_was_supplied
  (m : model) (payload : list (string * value))
  (mro : list string) (fields : list (string * value))
  (supplied : list string) :
  construct m payload = Ok (VModel mro fields supplied) ->
  supplied = present_names payload (m_fields m).
Proof.
  rewrite construct_spec.
  destruct (forallb (field_ok coerce payload) (m_fields m)) eqn:E;
    [|discriminate].
  intros H. inversion H; subst. now apply supplied_is_present.
Qed.

(** X9.  In an instance, a field that the payload did not supply holds
    the default of its declaration, unchanged. *)
Theorem X9_unsupplied_field_holds_default
  (m : model) (payload : list (string * value))
  (mro : list string) (fields : list (string * value))
  (supplied : list string) (n : string) (fd : field_decl ftype) :
  construct m payload = Ok (VModel mro fields supplied) ->
  find_field n (m_fields m) = Some fd ->
  lookup n payload = None ->
  exists d, f_default fd = Default d /\ lookup n fields = Some d.
Proof.
  rewrite construct_spec.
  destruct (forallb (field_ok coerce payload) (m_fields m)) eqn:E;
    [|discriminate].
  intros H Hf Hl. inversion H; subst.
  rewrite (lookup_binding _ _ _ _ E), Hf.
  destruct (find_field_name _ _ Hf) as [Hn Hin].
  rewrite forallb_forall in E. specialize (E fd Hin).
  unfold field_ok, field_value in *. rewrite Hn, Hl in *.
  destruct (f_default fd) as [|d]; [discriminate|]. now exists d.
Qed.

Lemma field_errors_located (src : list (string * value))
  (fd : field_decl ftype) (e : error) :
  In e (field_errors coerce src fd) ->
  exists rest, e_loc e = LField (f_name fd) :: rest.
Proof.
  unfold field_errors, field_value.
  assert (Hat : forall es, In e (at_loc (LField (f_name fd)) es) ->
                  exists rest, e_loc e = LField (f_name fd) :: rest).
  { intros es Hin. unfold at_loc in Hin. apply in_map_iff in Hin.
    destruct Hin as (e0 & <- & _). cbn. eauto. }
  destruct (lookup (f_name fd) src) as [raw|].
  - destruct (coerce (f_type fd) raw) as [v|es]; [|apply Hat].
    destruct (run_validator (f_validator fd) v) as [w|es];
      [contradiction | apply Hat].
  - destruct (f_default fd); [|contradiction].
    intros [<-|[]]. cbn. eauto.
Qed.

Lemma report_located (mro : list string) (src : list (string * value))
  (fs : list (field_decl ftype)) (es : ValidationError) (e : error) :
  finish mro (validate_fields coerce src fs) = Err es ->
  In e es ->
  exists n rest, e_loc e = LField n :: rest /\ In n (field_names fs).
Proof.
  rewrite finish_validate_fields.
  destruct (forallb (field_ok coerce src) fs); [discriminate|].
  intros H Hin. inversion H; subst.
  apply in_flat_map in Hin. destruct Hin as (fd & Hfd & He).
  destruct (field_errors_located _ _ _ He) as [rest Hrest].
  exists (f_name fd), rest. split; [exact Hrest|].
  unfold field_names. now apply in_map.
Qed.

(** X10.  Whatever a shape is validated from, mapping, object or any
    other value, every entry of its error report is located at a field
    the shape declares (its location starts with the name of that field),
    or the report is the single model-type error at the empty location,
    which is given only for an input that is not a mapping. *)
Theorem X10_errors_located_at_declared_fields
  (m : model) (v : value) (es : ValidationError) (e : error) :
  model_validate m v = Err es ->
  In e es ->
  (exists n rest,
     e_loc e = LField n :: rest /\ In n (field_names (m_fields m)))
  \/ (es = [mk_error [] (E_type N_model)]
      /\ forall payload, v <> VDict payload).
Proof.
  unfold model_validate, TModelOf. intros H Hin.
  assert (Hno : forall w, fail (E_type N_model) = Err es ->
                  (forall payload, w <> VDict payload) ->
                  es = [mk_error [] (E_type N_model)]
                  /\ forall payload, w <> VDict payload).
  { intros w Hf Hw. inversion Hf. now split. }
  destruct v; cbn in H;
    try (right; apply Hno; [exact H | discriminate]).
  - left. eapply report_located; eassumption.
  - destruct (m_from_attributes m).
    + left. eapply report_located; eassumption.
    + right. apply Hno; [exact H | discriminate].
  - match type of H with
    | (if ?b then _ else _) = _ => destruct b; [discriminate H|]
    end.
    destruct (m_from_attributes m).
    + left. eapply report_located; eassumption.
    + right. apply Hno; [exact H | discriminate].
Qed.

(** X11.  Among all the classes of the file, those that read an
    attribute-bearing object are exactly the twelve whose [Config] sets
    [from_attributes]: each of them validates a stored record as it
    validates the mapping of the record's attributes, and each of the
    other classes rejects every such object with the single model-type
    error, whatever its attributes are. *)
Theorem X11_only_config_classes_read_objects
  (m : model) (r : list (string * value)) :
  In m Schemas.all_shapes ->
  model_validate m (VObj r)
  = (if mem_string (m_name m) config_classes then construct m r
     else Err [mk_error [] (E_type N_model)])
  /\ map m_name (filter m_from_attributes Schemas.all_shapes)
     = config_classes.
Proof.
  intros Hin. split; [|reflexivity].
  rewrite model_validate_record.
  assert (H : forallb (fun m => Bool.eqb (m_from_attributes m)
                                  (mem_string (m_name m) config_classes))
                Schemas.all_shapes = true) by reflexivity.
  rewrite forallb_forall in H. specialize (H m Hin).
  apply Bool.eqb_prop in H. rewrite H. reflexivity.
Qed.

End Payloads.

Lemma X6_missing_required_witness :
  exists es,
    construct (X := sample_externals) Schemas.QuickExpenseCreate
      quick_expense_no_branch = Err es
    /\ In (missing_error "branch_id") es.
Proof.
  apply (@X6_missing_required_reported sample_externals
           Schemas.QuickExpenseCreate quick_expense_no_branch
           (req "branch_id" TInt)).
  - cbn. tauto.
  - reflexivity.
  - reflexivity.
Defined.

Lemma X7_undeclared_key_witness :
  construct (X := sample_externals) Schemas.AdminCreate
    (("is_superuser", VBool true) :: admin_create_payload)
  = construct (X := sample_externals) Schemas.AdminCreate admin_create_payload.
Proof.
  apply (@X7_undeclared_key_ignored sample_externals Schemas.AdminCreate).
  cbn. intros H.
  repeat (destruct H as [H|H]; [discriminate|]). exact H.
Defined.

Lemma X8_fields_set_witness :
  ["username"; "email"; "password"]
  = present_names admin_create_payload (m_fields Schemas.AdminCreate).
Proof.
  apply (@X8_fields_set_is_what_was_supplied sample_externals
           Schemas.AdminCreate admin_create_payload
           ["AdminCreate"; "AdminBase"]
           (fields_of (admin_create_instance []))).
  reflexivity.
Defined.

Lemma X9_unsupplied_default_witness :
  exists d,
    f_default (dflt "role" TUserRole (VRole WORKER)) = Default d
    /\ lookup "role" (fields_of (admin_create_instance [])) = Some d.
Proof.
  apply (@X9_unsupplied_field_holds_default sample_externals
           Schemas.AdminCreate admin_create_payload
           ["AdminCreate"; "AdminBase"]
           (fields_of (admin_create_instance []))
           ["username"; "email"; "password"] "role").
  - reflexivity.
  - reflexivity.
  - reflexivity.
Defined.

Lemma X10_errors_located_witness :
  (exists n rest,
     e_loc (mk_error [LField "email"]
              (email_error "An email address must have an @-sign."))
     = LField n :: rest
     /\ In n (field_names (m_fields Schemas.AdminBase)))
  \/ ([ mk_error [LField "username"] (E_type N_string);
        mk_error [LField "email"]
          (email_error "An email address must have an @-sign.") ]
      = [mk_error [] (E_type N_model)]
      /\ forall payload,
           VDict [("username", VInt 3); ("email", VStr "nobody")]
           <> VDict payload).
Proof.
  apply (@X10_errors_located_at_declared_fields sample_externals
           Schemas.AdminBase
           (VDict [("username", VInt 3); ("email", VStr "nobody")])).
  - reflexivity.
  - right. now left.
Defined.

Lemma X11_config_classes_witness :
  model_validate (X := sample_externals) Schemas.OrderCreate
    (VObj [("branch_id", VInt 1); ("items", VList [])])
  = (if mem_string (m_name Schemas.OrderCreate) config_classes
     then construct (X := sample_externals) Schemas.OrderCreate
            [("branch_id", VInt 1); ("items", VList [])]
     else Err [mk_error [] (E_type N_model)])
  /\ map m_name (filter m_from_attributes Schemas.all_shapes)
     = config_classes.
Proof.
  apply (@X11_only_config_classes_read_objects sample_externals
           Schemas.OrderCreate).
  cbn. tauto.
Defined.

(** ** Orders and their items *)

Section Orders.
Context {X : Externals}.

Lemma coerce_item (a : item_args) :
  coerce (TModelOf Schemas.OrderItemCreate) (item_payload a)
  = Ok (item_instance a).
Proof. destruct a as [m q [s|]]; reflexivity. Qed.

Lemma coerce_items_of_args (l : list item_args) :
  forall i,
    coerce_items (coerce (TModelOf Schemas.OrderItemCreate)) i
      (map item_payload l)
    = Ok (map item_instance l).
Proof.
  induction l as [|a r IH]; intros i; [reflexivity|].
  cbn [map coerce_items]. now rewrite coerce_item, IH.
Qed.

Lemma coerce_items_bad_item (pre post : list item_args) (x : value)
  (e : ValidationError) :
  coerce (TModelOf Schemas.OrderItemCreate) x = Err e ->
  forall i,
    coerce_items (coerce (TModelOf Schemas.OrderItemCreate)) i
      (map item_payload pre ++ x :: map item_payload post)
    = Err (at_loc (LIndex (i + List.length pre)) e).
Proof.
  intros Hx. induction pre as [|a r IH]; intros i.
  - cbn [map app coerce_items List.length].
    rewrite Hx, coerce_items_of_args. now rewrite Nat.add_0_r.
  - cbn [map app coerce_items List.length].
    rewrite coerce_item, IH. f_equal. f_equal. f_equal. lia.
Qed.

Lemma construct_order (branch : Z) (items : list value) :
  construct Schemas.OrderCreate (order_payload branch items)
  = match coerce_items (coerce (TModelOf Schemas.OrderItemCreate)) 0 items
    with
    | Ok ys =>
        Ok (VModel ["OrderCreate"]
              [ ("branch_id", VInt branch); ("customer_name", VNone);
                ("customer_email", VNone); ("order_type", VStr "dine_in");
                ("items", VList ys) ]
              ["branch_id"; "items"])
    | Err es => Err (at_loc (LField "items") es)
    end.
Proof.
  rewrite construct_unfold.
  cbn [Schemas.OrderCreate m_fields m_mro m_name m_bases validate_fields].
  unfold validate_field at 1 2 3 4 5. unfold field_value.
  cbn [f_name f_type f_default f_validator req opt dflt
       order_payload lookup String.eqb Ascii.eqb Bool.eqb].
  change (coerce (TList (TModelOf Schemas.OrderItemCreate)) (VList items))
    with (match coerce_items (coerce (TModelOf Schemas.OrderItemCreate)) 0
                  items with
          | Ok ys => Ok (VList ys)
          | Err es => Err es
          end).
  pose proof (@coerce_items_nonempty
                (coerce (TModelOf Schemas.OrderItemCreate))
                (coerce_nonempty (TModelOf Schemas.OrderItemCreate))
                items 0) as Hne.
  destruct (coerce_items (coerce (TModelOf Schemas.OrderItemCreate)) 0 items)
    as [ys|es]; [reflexivity|].
  cbn. unfold finish. cbn. rewrite app_nil_r.
  destruct es as [|e es]; [now contradict Hne | reflexivity].
Qed.

(** X12.  [OrderCreate] accepts every list of well-typed items, of any
    length and with any integers as quantities (zero and negative ones
    too), and the instance holds one [OrderItemCreate] per item, in the
    order given. *)
Theorem X12_order_items_kept_in_order (branch : Z) (items : list item_args) :
  construct Schemas.OrderCreate
    (order_payload branch (map item_payload items))
  = Ok (VModel ["OrderCreate"]
          [ ("branch_id", VInt branch); ("customer_name", VNone);
            ("customer_email", VNone); ("order_type", VStr "dine_in");
            ("items", VList (map item_instance items)) ]
          ["branch_id"; "items"]).
Proof. now rewrite construct_order, coerce_items_of_args. Qed.

(** X13.  One item that [OrderItemCreate] rejects makes the whole order
    fail, and the report carries the item's errors located under [items]
    at the index of the item, wherever it stands among valid items. *)
Theorem X13_bad_item_located_by_index
  (branch : Z) (pre post : list item_args) (x : value)
  (e : ValidationError) :
  coerce (TModelOf Schemas.OrderItemCreate) x = Err e ->
  construct Schemas.OrderCreate
    (order_payload branch
       (map item_payload pre ++ x :: map item_payload post))
  = Err (at_loc (LField "items") (at_loc (LIndex (List.length pre)) e)).
Proof.
  intros Hx. rewrite construct_order.
  now rewrite (coerce_items_bad_item pre post x Hx 0).
Qed.

End Orders.

Lemma X13_bad_item_witness :
  construct (X := sample_externals) Schemas.OrderCreate
    (order_payload 1
       (map item_payload [mk_item_args 4 2 None; mk_item_args 9 1 None]
        ++ VDict [("menu_item_id", VInt 5)] :: map item_payload []))
  = Err (at_loc (LField "items")
           (at_loc (LIndex 2) [mk_error [LField "quantity"] E_missing])).
Proof.
  apply (@X13_bad_item_located_by_index sample_externals 1
           [mk_item_args 4 2 None; mk_item_args 9 1 None] []
           (VDict [("menu_item_id", VInt 5)])).
  reflexivity.
Defined.

(** ** Dumping an instance and validating the dump *)

Lemma filter_all (A : Type) (f : A -> bool) (l : list A) :
  (forall x, In x l -> f x = true) -> filter f l = l.
Proof.
  induction l as [|x r IH]; intros H; [reflexivity|].
  cbn. rewrite (H x (or_introl eq_refl)). f_equal.
  apply IH. intros y Hy. apply H. now right.
Qed.

Lemma dump_bindings_present (fields : list (string * value)) (n : string) :
  In n (keys fields) -> is_present (dump_bindings fields) n = true.
Proof.
  intros Hin. unfold is_present. rewrite lookup_dump_bindings.
  destruct (lookup_in_keys _ _ Hin) as [v ->]. reflexivity.
Qed.

Section Dump.
Context {X : Externals}.

(** X14.  [model_dump] writes every field of an instance, so validating
    the dump with the same shape marks every declared field as supplied:
    which fields were left unset does not survive the round trip. *)
Theorem X14_dump_marks_every_field_supplied
  (m : model) (mro mro' : list string)
  (fields fields' : list (string * value)) (supplied supplied' : list string) :
  keys fields = field_names (m_fields m) ->
  model_validate m (model_dump (VModel mro fields supplied))
  = Ok (VModel mro' fields' supplied') ->
  supplied' = field_names (m_fields m).
Proof.
  intros Hk. rewrite model_dump_model.
  change (model_validate m (VDict (dump_bindings fields)))
    with (construct m (dump_bindings fields)).
  rewrite construct_spec.
  destruct (forallb (field_ok coerce (dump_bindings fields)) (m_fields m))
    eqn:E; [|discriminate].
  intros H. inversion H; subst.
  rewrite (supplied_is_present _ _ E). unfold present_names.
  apply filter_all. intros n Hn. apply dump_bindings_present.
  now rewrite Hk.
Qed.

(** X15.  For every shape with no [EmailStr] field, no [dict] field and
    no validator, validating the dump of a valid instance with the same
    shape succeeds and gives an instance of the same class whose fields
    agree with the original's, field for field. *)
Theorem X15_revalidating_a_dump (m : model) (inst : value) :
  In m self_roundtrip_shapes ->
  conforms (TModelOf m) inst ->
  exists fields supplied,
    model_validate m (model_dump inst) = Ok (VModel (m_mro m) fields supplied)
    /\ keys fields = field_names (m_fields m)
    /\ agree inst (VModel (m_mro m) fields supplied).
Proof.
  intros Hin Hc.
  assert (Hr : reparsable (TModelOf m) (TModelOf m)).
  { repeat (destruct Hin as [<-|Hin]; [solve_reparsable|]). destruct Hin. }
  destruct (reparse _ _ _ Hr Hc) as (w & Hw & Ha).
  pose proof Hc as Hc'. apply conforms_model in Hc'.
  destruct Hc' as (fields0 & sup0 & -> & _).
  unfold model_validate. rewrite model_dump_model in *.
  change (coerce (TModelOf m) (VDict (dump_bindings fields0)))
    with (construct m (dump_bindings fields0)) in *.
  rewrite construct_spec in *.
  destruct (forallb (field_ok coerce (dump_bindings fields0)) (m_fields m))
    eqn:E; [|discriminate].
  inversion Hw; subst. eexists _, _. split; [reflexivity|].
  split; [now apply all_ok_keys | exact Ha].
Qed.

(** X16.  Type safety of construction: in an instance built from a
    payload holding no pydantic instance, by a shape without validators,
    every field holds a value of its declared type, or the default of its
    declaration; nested instances and list elements likewise. *)
Theorem X16_fields_have_declared_types
  (m : model) (payload : list (string * value)) (inst : value) :
  no_validators (TModelOf m) = true ->
  plain_bindings payload = true ->
  construct m payload = Ok inst ->
  conforms (TModelOf m) inst.
Proof.
  intros Hnv Hp Hc.
  apply (coerce_conforms _ Hnv (VDict payload)); [|exact Hc].
  now rewrite plain_dict.
Qed.

End Dump.

Lemma X14_dump_marks_witness :
  ["name"; "location"; "address"; "phone"; "email"; "is_active"]
  = field_names (m_fields Schemas.BranchUpdate).
Proof.
  apply (@X14_dump_marks_every_field_supplied sample_externals
           Schemas.BranchUpdate ["BranchUpdate"] ["BranchUpdate"]
           (all_none Schemas.BranchUpdate) (all_none Schemas.BranchUpdate)
           [] ["name"; "location"; "address"; "phone"; "email"; "is_active"]);
    reflexivity.
Defined.

Lemma X16_declared_types_witness :
  conforms (TModelOf Schemas.AdminCreate) (admin_create_instance
                                             ["username"; "email"; "password"]).
Proof.
  apply (@X16_fields_have_declared_types sample_externals Schemas.AdminCreate
           admin_create_payload); reflexivity.
Defined.

Lemma X15_revalidating_witness :
  exists fields supplied,
    model_validate (X := sample_externals) Schemas.BranchResponse
      (model_dump harbour_branch)
    = Ok (VModel ["BranchResponse"; "BranchBase"] fields supplied)
    /\ keys fields = field_names (m_fields Schemas.BranchResponse)
    /\ agree harbour_branch
         (VModel ["BranchResponse"; "BranchBase"] fields supplied).
Proof.
  apply (@X15_revalidating_a_dump sample_externals Schemas.BranchResponse
           harbour_branch).
  - cbn. tauto.
  - exact harbour_branch_conforms.
Defined.

(** ** Rows of a report, null values, image URLs of the menu *)

Section MoreFields.
Context {X : Externals}.

Lemma coerce_dict_rows (rows : list (list (string * value))) :
  forall i, coerce_items (coerce TDict) i (map VDict rows)
            = Ok (map VDict rows).
Proof.
  induction rows as [|r rs IH]; intros i; [reflexivity|].
  cbn [map coerce_items]. rewrite IH. reflexivity.
Qed.

(** X17.  The rows of a sales summary are declared [List[dict]]: every
    list of mappings is accepted, whatever the mappings hold, and is
    stored as it is. *)
Theorem X17_summary_rows_unvalidated
  (date : string) (branch : option Z) (sold : Z) (revenue : float)
  (rows : list (list (string * value))) :
  construct Schemas.SalesSummary (summary_payload date branch sold revenue rows)
  = Ok (VModel ["SalesSummary"]
          [ ("date", VStr date); ("branch_id", or_none VInt branch);
            ("total_items_sold", VInt sold); ("total_revenue", VFloat revenue);
            ("sales_by_item", VList (map VDict rows)) ]
          ([ "date" ] ++ supplied_opt "branch_id" branch
           ++ [ "total_items_sold"; "total_revenue"; "sales_by_item" ])).
Proof.
  assert (Hrows : coerce (TList TDict) (VList (map VDict rows))
                  = Ok (VList (map VDict rows))).
  { cbn [coerce]. now rewrite coerce_dict_rows. }
  rewrite construct_unfold.
  destruct branch as [b|];
    cbn -[coerce]; unfold validate_field, field_value;
    cbn -[coerce]; rewrite Hrows; reflexivity.
Qed.

Lemma coerce_none (t : ftype) :
  is_optional t = false -> is_ok (coerce t VNone) = false.
Proof. destruct t; cbn; try reflexivity; discriminate. Qed.

(** X18.  An explicit null is accepted exactly by the fields declared
    [Optional]: in every class of the file, a field supplied as [None]
    passes iff its type is [Optional[...]]; a required field, never
    [Optional] here, rejects null instead of treating it as absent. *)
Theorem X18_null_only_for_optional
  (m : model) (payload : list (string * value)) (fd : field_decl ftype) :
  In m Schemas.all_shapes ->
  In fd (m_fields m) ->
  lookup (f_name fd) payload = Some VNone ->
  field_ok coerce payload fd = is_optional (f_type fd)
  /\ (f_default fd = Required -> is_ok (construct m payload) = false).
Proof.
  intros Hm Hfd Hl.
  assert (Hfile : forallb (fun m => forallb (fun fd =>
                     (negb (is_optional (f_type fd))
                      || match f_validator fd with
                         | None => true | Some _ => false end)
                     && (negb (is_required fd)
                         || negb (is_optional (f_type fd))))
                    (m_fields m)) Schemas.all_shapes = true) by reflexivity.
  rewrite forallb_forall in Hfile. specialize (Hfile m Hm).
  rewrite forallb_forall in Hfile. specialize (Hfile fd Hfd).
  apply andb_true_iff in Hfile as [Hv Hr].
  assert (Hok : field_ok coerce payload fd = is_optional (f_type fd)).
  { unfold field_ok, field_value. rewrite Hl.
    destruct (is_optional (f_type fd)) eqn:Eo.
    - destruct (f_type fd); try discriminate. cbn.
      cbn in Hv. destruct (f_validator fd); [discriminate | reflexivity].
    - pose proof (coerce_none (f_type fd) Eo) as Hn.
      destruct (coerce (f_type fd) VNone); [discriminate | reflexivity]. }
  split; [exact Hok|].
  intros Hreq. unfold is_required in Hr. rewrite Hreq in Hr. cbn in Hr.
  rewrite construct_is_ok.
  destruct (forallb (field_ok coerce payload) (m_fields m)) eqn:E;
    [|reflexivity].
  rewrite forallb_forall in E. specialize (E fd Hfd). rewrite Hok in E.
  rewrite E in Hr. discriminate.
Qed.

(** X19.  The extension check is attached to [ImageUploadResponse.url]
    only: the [image_url] fields of the Ingredient and MenuItem shapes are
    plain optional strings, so every string, with or without an image
    extension, is accepted there and kept unchanged. *)
Theorem X19_image_url_fields_unchecked
  (m : model) (payload : list (string * value)) (v : string) :
  In m image_url_fields ->
  lookup "image_url" payload = Some (VStr v) ->
  others_ok coerce payload "image_url" (m_fields m) = true ->
  exists fields supplied,
    construct m payload = Ok (VModel (m_mro m) fields supplied)
    /\ lookup "image_url" fields = Some (VStr v).
Proof.
  intros Hin Hl Ho.
  assert (Hf : filter (fun fd => String.eqb "image_url" (f_name fd))
                      (m_fields m) = [opt "image_url" TStr]).
  { repeat (destruct Hin as [<-|Hin]; [reflexivity|]). destruct Hin. }
  assert (Hv : field_value coerce payload (opt "image_url" TStr)
               = Ok (VStr v, true)).
  { erewrite field_value_present; [|exact Hl|reflexivity]. reflexivity. }
  destruct (construct_on_field _ _ _ Ho Hf Hv) as [Hc Hlk]. eauto.
Qed.

End MoreFields.

Lemma X18_null_witness :
  field_ok (@coerce sample_externals) [("name", VNone)] (req "name" TStr)
  = is_optional TStr
  /\ (f_default (req "name" TStr) = Required ->
      is_ok (construct (X := sample_externals) Schemas.BranchCreate
               [("name", VNone)]) = false).
Proof.
  apply (@X18_null_only_for_optional sample_externals Schemas.BranchCreate
           [("name", VNone)] (req "name" TStr)).
  - cbn. tauto.
  - cbn. tauto.
  - reflexivity.
Defined.

Lemma X19_image_url_witness :
  exists fields supplied,
    construct (X := sample_externals) Schemas.IngredientCreate
      [ ("name", VStr "Flour"); ("quantity", VFloat 0.5);
        ("unit", VStr "kg"); ("image_url", VStr "ftp://x/run.exe") ]
    = Ok (VModel ["IngredientCreate"; "IngredientBase"] fields supplied)
    /\ lookup "image_url" fields = Some (VStr "ftp://x/run.exe").
Proof.
  apply (@X19_image_url_fields_unchecked sample_externals
           Schemas.IngredientCreate).
  - cbn. tauto.
  - reflexivity.
  - reflexivity.
Defined.
